(** * The submission pipeline of the dupe-request form

    A shallow embedding of [handleSubmit] and of the component state of
    [Home] (the page component of the repository), together with the parts of
    the JavaScript runtime the handler relies on: [String.prototype.trim],
    [parseFloat], [isNaN] and the truthiness of strings.

    - JavaScript strings are sequences of UTF-16 code units, here [list N].
    - The component state is a record; the [setX] calls of React are state
      updates applied in program order.
    - [handleSubmit] is asynchronous.  It runs synchronously up to an [await],
      where it suspends with the values its closure holds; it is resumed with
      the answer of the awaited network call.  Every call to the outside (the
      storage client, the table client, the console, [alert]) is appended to a
      log of calls. *)

From Stdlib Require Import List NArith ZArith QArith Bool String Ascii.
From Stdlib Require Import DecimalN Arith Lia.
Import ListNotations.

Open Scope list_scope.
Open Scope N_scope.

(** ** JavaScript strings *)

Definition code_unit := N.
Definition JSString := list code_unit.

(** An ASCII literal as a sequence of code units. *)
Fixpoint lit (s : string) : JSString :=
  match s with
  | EmptyString => []
  | String c r => N_of_ascii c :: lit r
  end.

Fixpoint jsstring_eqb (a b : JSString) : bool :=
  match a, b with
  | [], [] => true
  | x :: a', y :: b' => (x =? y) && jsstring_eqb a' b'
  | _, _ => false
  end.

(** [WhiteSpace] and [LineTerminator] of ECMAScript: what [trim] strips and
    what [parseFloat] skips at the start of its argument. *)
Definition isWhiteSpace (c : code_unit) : bool :=
  (c =? 9) || (c =? 10) || (c =? 11) || (c =? 12) || (c =? 13) || (c =? 32)
  || (c =? 160) || (c =? 5760) || ((8192 <=? c) && (c <=? 8202))
  || (c =? 8232) || (c =? 8233) || (c =? 8239) || (c =? 8287)
  || (c =? 12288) || (c =? 65279).

Fixpoint trimStart (s : JSString) : JSString :=
  match s with
  | [] => []
  | c :: r => if isWhiteSpace c then trimStart r else s
  end.

Definition trimEnd (s : JSString) : JSString := rev (trimStart (rev s)).

(** [s.trim()] *)
Definition trim (s : JSString) : JSString := trimEnd (trimStart s).

(** [!s] for a string [s]: only the empty string is falsy. *)
Definition falsy (s : JSString) : bool :=
  match s with [] => true | _ => false end.

(** [s || null] for a string [s]. *)
Definition or_null (s : JSString) : option JSString :=
  if falsy s then None else Some s.

(** ** JavaScript numbers as [parseFloat] produces them

    [Decimal neg m e] stands for the number [(-1)^neg * m * 10^e], the
    mathematical value of the decimal literal that was read.  The rounding of
    that value to a binary64 is not modelled; it never turns a literal into
    [NaN]. *)
Inductive JSNumber :=
| NaN
| Infinity (neg : bool)
| Decimal (neg : bool) (mantissa : N) (exponent : Z).

Definition isNaN (x : JSNumber) : bool :=
  match x with NaN => true | _ => false end.

Definition isFinite (x : JSNumber) : bool :=
  match x with Decimal _ _ _ => true | _ => false end.

(** The rational a finite number stands for. *)
Definition number_value (x : JSNumber) : option Q :=
  match x with
  | Decimal neg m e =>
      let a := (if neg then - Z.of_N m else Z.of_N m)%Z in
      Some (match e with
            | Z0 => inject_Z a
            | Zpos p => inject_Z (a * 10 ^ Zpos p)
            | Zneg p => Qmake a (Pos.pow 10 p)
            end)
  | _ => None
  end.

Definition isDigit (c : code_unit) : bool := (48 <=? c) && (c <=? 57).

(** The longest run of decimal digits at the start of [s], as digit values,
    and what follows it. *)
Fixpoint span_digits (s : JSString) : list N * JSString :=
  match s with
  | [] => ([], [])
  | c :: r =>
      if isDigit c
      then let (ds, rest) := span_digits r in ((c - 48) :: ds, rest)
      else ([], s)
  end.

Definition digits_value (ds : list N) : N :=
  fold_left (fun acc d => 10 * acc + d) ds 0.

Fixpoint starts_with (p s : JSString) : bool :=
  match p, s with
  | [], _ => true
  | x :: p', y :: s' => (x =? y) && starts_with p' s'
  | _ :: _, [] => false
  end.

(** [ExponentPart]: [e] or [E], an optional sign and at least one digit.
    When what follows the mantissa is not a whole exponent part it does not
    belong to the literal, and the exponent is 0. *)
Definition parse_exponent (s : JSString) : Z :=
  match s with
  | [] => 0%Z
  | c :: r =>
      if (c =? 101) || (c =? 69) then
        let '(neg, r') :=
          match r with
          | [] => (false, r)
          | d :: r'' =>
              if d =? 43 then (false, r'')
              else if d =? 45 then (true, r'')
              else (false, r)
          end in
        let (ds, _) := span_digits r' in
        match ds with
        | [] => 0%Z
        | _ :: _ =>
            if neg then (- Z.of_N (digits_value ds))%Z
            else Z.of_N (digits_value ds)
        end
      else 0%Z
  end.

(** [StrUnsignedDecimalLiteral]: [Infinity], digits with an optional
    fraction, or a fraction that starts with the point; each of the last two
    with an optional exponent part.  The longest prefix of that shape is read;
    with no such prefix the result is [NaN]. *)
Definition parse_unsigned (neg : bool) (s : JSString) : JSNumber :=
  if starts_with (lit "Infinity") s then Infinity neg
  else
    let (ip, r1) := span_digits s in
    match r1 with
    | c :: r2 =>
        if c =? 46 then
          let (fp, r3) := span_digits r2 in
          match ip, fp with
          | [], [] => NaN
          | _, _ =>
              Decimal neg (digits_value (ip ++ fp))
                (parse_exponent r3 - Z.of_nat (List.length fp))
          end
        else
          match ip with
          | [] => NaN
          | _ :: _ => Decimal neg (digits_value ip) (parse_exponent r1)
          end
    | [] =>
        match ip with
        | [] => NaN
        | _ :: _ => Decimal neg (digits_value ip) 0
        end
    end.

(** [parseFloat(s)] *)
Definition parseFloat (s : JSString) : JSNumber :=
  match trimStart s with
  | [] => NaN
  | c :: r =>
      if c =? 43 then parse_unsigned false r
      else if c =? 45 then parse_unsigned true r
      else parse_unsigned false (c :: r)
  end.

(** [`${n}`] for a non-negative integer below 10^21, such as [Date.now()]. *)
Fixpoint uint_units (d : Decimal.uint) : JSString :=
  match d with
  | Decimal.Nil => []
  | Decimal.D0 r => 48 :: uint_units r
  | Decimal.D1 r => 49 :: uint_units r
  | Decimal.D2 r => 50 :: uint_units r
  | Decimal.D3 r => 51 :: uint_units r
  | Decimal.D4 r => 52 :: uint_units r
  | Decimal.D5 r => 53 :: uint_units r
  | Decimal.D6 r => 54 :: uint_units r
  | Decimal.D7 r => 55 :: uint_units r
  | Decimal.D8 r => 56 :: uint_units r
  | Decimal.D9 r => 57 :: uint_units r
  end.

Definition toString (n : N) : JSString := uint_units (N.to_uint n).

(** ** The component state of [Home] *)

Inductive UploadType := file | url.

Record FormData := {
  productUrl : JSString;
  budget : JSString;
  material : JSString;
  comments : JSString;
  name : JSString;
  phone : JSString
}.

(** A [File] chosen in the file input: its name and its bytes. *)
Module File.
Record t := { name : JSString; bytes : list N }.
End File.

Record State := {
  formData : FormData;
  selectedImage : option File.t;
  uploadType : UploadType;
  isSubmitting : bool;
  submitError : JSString
}.

Definition emptyFormData : FormData :=
  {| productUrl := []; budget := []; material := []; comments := [];
     name := []; phone := [] |}.

(** The arguments of the five [useState] calls. *)
Definition initialState : State :=
  {| formData := emptyFormData; selectedImage := None; uploadType := file;
     isSubmitting := false; submitError := [] |}.

Definition setFormData (v : FormData) (s : State) : State :=
  {| formData := v; selectedImage := selectedImage s;
     uploadType := uploadType s; isSubmitting := isSubmitting s;
     submitError := submitError s |}.

Definition setSelectedImage (v : option File.t) (s : State) : State :=
  {| formData := formData s; selectedImage := v;
     uploadType := uploadType s; isSubmitting := isSubmitting s;
     submitError := submitError s |}.

Definition setUploadType (v : UploadType) (s : State) : State :=
  {| formData := formData s; selectedImage := selectedImage s;
     uploadType := v; isSubmitting := isSubmitting s;
     submitError := submitError s |}.

Definition setIsSubmitting (v : bool) (s : State) : State :=
  {| formData := formData s; selectedImage := selectedImage s;
     uploadType := uploadType s; isSubmitting := v;
     submitError := submitError s |}.

Definition setSubmitError (v : JSString) (s : State) : State :=
  {| formData := formData s; selectedImage := selectedImage s;
     uploadType := uploadType s; isSubmitting := isSubmitting s;
     submitError := v |}.

(** What the page shows of an attempt: the submit button is disabled and
    reads [Submitting...] while [isSubmitting]; the alert box is rendered
    when [submitError] is not empty. *)
Inductive Lifecycle :=
| IDLE
| SUBMITTING
| ERROR (message : JSString).

Definition lifecycle (s : State) : Lifecycle :=
  if isSubmitting s then SUBMITTING
  else if falsy (submitError s) then IDLE
  else ERROR (submitError s).

(** The names of the six text inputs, the [e.target.name] of [handleChange]. *)
Inductive Field :=
| f_productUrl | f_budget | f_material | f_comments | f_name | f_phone.

(** [setFormData({...formData, [e.target.name]: e.target.value})] *)
Definition handleChange (f : Field) (v : JSString) (s : State) : State :=
  let d := formData s in
  setFormData
    match f with
    | f_productUrl =>
        {| productUrl := v; budget := budget d; material := material d;
           comments := comments d; name := name d; phone := phone d |}
    | f_budget =>
        {| productUrl := productUrl d; budget := v; material := material d;
           comments := comments d; name := name d; phone := phone d |}
    | f_material =>
        {| productUrl := productUrl d; budget := budget d; material := v;
           comments := comments d; name := name d; phone := phone d |}
    | f_comments =>
        {| productUrl := productUrl d; budget := budget d;
           material := material d; comments := v; name := name d;
           phone := phone d |}
    | f_name =>
        {| productUrl := productUrl d; budget := budget d;
           material := material d; comments := comments d; name := v;
           phone := phone d |}
    | f_phone =>
        {| productUrl := productUrl d; budget := budget d;
           material := material d; comments := comments d; name := name d;
           phone := v |}
    end s.

(** [if (e.target.files && e.target.files[0]) setSelectedImage(...)] *)
Definition handleImageChange (files : list File.t) (s : State) : State :=
  match files with
  | [] => s
  | f :: _ => setSelectedImage (Some f) s
  end.

(** ** The outside world *)

(** The row handed to [insert]. *)
Module Submission.
Record t := {
  product_url : option JSString;
  budget : JSNumber;
  material : option JSString;
  extra_comments : option JSString;
  name : option JSString;
  phone_number : option JSString
}.
End Submission.

Inductive Call :=
| storage_upload (bucket path : JSString) (f : File.t)
| storage_getPublicUrl (bucket path : JSString)
| from_insert (table : JSString) (row : Submission.t)
| console_error (label detail : JSString)
| console_log (label : JSString)
| alert (message : JSString).

(** What [await supabase.storage.from(..).upload(..)] evaluates to. *)
Inductive UploadAnswer :=
| upload_data (path : JSString)
| upload_error (message : JSString)
| upload_rejected (reason : JSString).

(** What [await supabase.from(..).insert(..).select()] evaluates to. *)
Inductive InsertAnswer :=
| insert_data
| insert_error (code message : JSString)
| insert_rejected (reason : JSString).

Definition is_storage_call (c : Call) : bool :=
  match c with
  | storage_upload _ _ _ | storage_getPublicUrl _ _ => true
  | _ => false
  end.

(** ** The messages of [handleSubmit] *)

Definition msg_image := lit "Please upload a product image".
Definition msg_url := lit "Please enter a product URL".
Definition msg_budget := lit "Please enter your budget".
Definition msg_name := lit "Please enter your name".
Definition msg_phone := lit "Please enter your phone number".
Definition msg_invalid_budget := lit "Please enter a valid budget amount".
Definition msg_upload := lit "Failed to upload image".
Definition msg_exists := lit "This submission already exists".
Definition msg_table := lit "Table not found. Please check your database setup".
Definition msg_column := lit "Invalid column name. Please check the form fields".
Definition msg_required := lit "Required field missing".
Definition msg_database := lit "Database error: ".
Definition msg_generic :=
  lit "There was an error submitting your request. Please try again.".
Definition msg_thanks :=
  lit "Thank you! We will text you with our hand-selected dupes soon!".

(** ** [handleSubmit] *)

(** Where a suspended [handleSubmit] waits, with the values of its closure
    that the rest of the body still reads. *)
Inductive Suspended :=
| awaiting_upload (fd : FormData) (budgetNum : JSNumber)
| awaiting_insert.

(** What a stretch of the handler leaves behind: the component state, the
    calls it made, and where it is suspended ([None] once it has returned). *)
Record Outcome := {
  state : State;
  calls : list Call;
  rest : option Suspended
}.

Definition is_file (t : UploadType) : bool :=
  match t with file => true | url => false end.

Definition is_url (t : UploadType) : bool :=
  match t with url => true | file => false end.

(** [!v] for a value that is an object or [null]. *)
Definition isNull {A} (v : option A) : bool :=
  match v with None => true | Some _ => false end.

(** The checks before the [try] block, in program order.  Each failing check
    ends the handler with [setSubmitError(message); setIsSubmitting(false);
    return]; [inl] carries that message, [inr] the parsed budget. *)
Definition validate (s : State) : JSString + JSNumber :=
  if is_file (uploadType s) && isNull (selectedImage s) then inl msg_image
  else if is_url (uploadType s) && falsy (trim (productUrl (formData s)))
  then inl msg_url
  else if falsy (trim (budget (formData s))) then inl msg_budget
  else if falsy (trim (name (formData s))) then inl msg_name
  else if falsy (trim (phone (formData s))) then inl msg_phone
  else
    let budgetNum := parseFloat (budget (formData s)) in
    if isNaN budgetNum then inl msg_invalid_budget
    else inr budgetNum.

(** The table from the code of a failed insert to the message of the [Error]
    that is thrown. *)
Definition insert_error_message (code message : JSString) : JSString :=
  if jsstring_eqb code (lit "23505") then msg_exists
  else if jsstring_eqb code (lit "42P01") then msg_table
  else if jsstring_eqb code (lit "42703") then msg_column
  else if jsstring_eqb code (lit "23502") then msg_required
  else msg_database ++ message.

(** The object literal passed to [insert]. *)
Definition row_of (fd : FormData) (imageUrl : option JSString)
    (budgetNum : JSNumber) : Submission.t :=
  {| Submission.product_url := imageUrl;
     Submission.budget := budgetNum;
     Submission.material := or_null (trim (material fd));
     Submission.extra_comments := or_null (trim (comments fd));
     Submission.name := or_null (trim (name fd));
     Submission.phone_number := or_null (trim (phone fd)) |}.

(** [catch (error) { console.error(..); setSubmitError(..) }] followed by
    [finally { setIsSubmitting(false) }], for an exception [e] thrown in the
    [try] block after the calls [before]. *)
Definition catch_finally (before : list Call) (e : JSString) (st : State)
    : Outcome :=
  {| state := setIsSubmitting false (setSubmitError msg_generic st);
     calls := before ++ [console_error (lit "Error submitting form:") e];
     rest := None |}.

(** The call of [insert] with the image address at hand; the handler then
    waits for its answer. *)
Definition start_insert (before : list Call) (fd : FormData)
    (imageUrl : option JSString) (budgetNum : JSNumber) (st : State)
    : Outcome :=
  {| state := st;
     calls := before
                ++ [from_insert (lit "form_submissions")
                      (row_of fd imageUrl budgetNum)];
     rest := Some awaiting_insert |}.

Section Handler.

(** [supabase.storage.from(bucket).getPublicUrl(path).data.publicUrl] *)
Variable publicUrl : JSString -> JSString -> JSString.

(** The [try] block up to its first [await].  [s] is the state the closure
    was rendered with, [st] the state after the updates made so far. *)
Definition try_block (now : N) (s : State) (budgetNum : JSNumber)
    (st : State) : Outcome :=
  match uploadType s, selectedImage s with
  | file, Some img =>
      (* if (uploadType === 'file' && selectedImage) *)
      {| state := st;
         calls := [storage_upload (lit "mvp_bucket")
                     (toString now ++ lit "-" ++ File.name img) img];
         rest := Some (awaiting_upload (formData s) budgetNum) |}
  | url, _ =>
      (* else if (uploadType === 'url') *)
      start_insert [] (formData s)
        (Some (trim (productUrl (formData s)))) budgetNum st
  | file, None =>
      (* neither branch: imageUrl is still null *)
      start_insert [] (formData s) None budgetNum st
  end.

(** [handleSubmit], from its start to its first [await] or to its return;
    [now] is the value of [Date.now()].  [e.preventDefault()] leaves the
    component state alone and is not recorded. *)
Definition handleSubmit (now : N) (s : State) : Outcome :=
  let st := setSubmitError [] (setIsSubmitting true s) in
  match validate s with
  | inl message =>
      {| state := setIsSubmitting false (setSubmitError message st);
         calls := [];
         rest := None |}
  | inr budgetNum => try_block now s budgetNum st
  end.

(** The body from the answer of [upload] on. *)
Definition resume_upload (fd : FormData) (budgetNum : JSNumber)
    (a : UploadAnswer) (st : State) : Outcome :=
  match a with
  | upload_error m =>
      catch_finally [console_error (lit "Image upload error:") m]
        msg_upload st
  | upload_data path =>
      start_insert [storage_getPublicUrl (lit "mvp_bucket") path] fd
        (Some (publicUrl (lit "mvp_bucket") path)) budgetNum st
  | upload_rejected reason => catch_finally [] reason st
  end.

(** The body from the answer of [insert] on. *)
Definition resume_insert (a : InsertAnswer) (st : State) : Outcome :=
  match a with
  | insert_error code m =>
      catch_finally [console_error (lit "Supabase insertion error:") m]
        (insert_error_message code m) st
  | insert_data =>
      {| state :=
           setIsSubmitting false
             (setSelectedImage None (setFormData emptyFormData st));
         calls := [console_log (lit "Successfully inserted data:");
                   alert msg_thanks];
         rest := None |}
  | insert_rejected reason => catch_finally [] reason st
  end.

Definition resume (k : Suspended) (up : UploadAnswer) (ins : InsertAnswer)
    (st : State) : Outcome :=
  match k with
  | awaiting_upload fd budgetNum => resume_upload fd budgetNum up st
  | awaiting_insert => resume_insert ins st
  end.

(** One whole attempt with nothing else happening in between: the handler
    is resumed with [up] if it waits for the upload and with [ins] if it
    waits for the insert, until it returns. *)
Definition then_ (o : Outcome) (f : Suspended -> State -> Outcome)
    : Outcome :=
  match rest o with
  | None => o
  | Some k =>
      let o' := f k (state o) in
      {| state := state o'; calls := calls o ++ calls o'; rest := rest o' |}
  end.

Definition attempt (now : N) (up : UploadAnswer) (ins : InsertAnswer)
    (s : State) : Outcome :=
  then_ (then_ (handleSubmit now s) (fun k => resume k up ins))
    (fun k => resume k up ins).

(** ** The page as a system of events

    A session is the component state, the suspended runs of [handleSubmit]
    and the calls made so far. *)
Record Session := {
  ui : State;
  inflight : list Suspended;
  effects : list Call
}.

Definition initialSession : Session :=
  {| ui := initialState; inflight := []; effects := [] |}.

Inductive Event :=
| submit_activated (now : N)
| field_changed (f : Field) (v : JSString)
| image_chosen (files : list File.t)
| mode_chosen (t : UploadType)
| upload_settled (i : nat) (a : UploadAnswer)
| insert_settled (i : nat) (a : InsertAnswer).

Fixpoint remove_nth {A} (i : nat) (l : list A) : list A :=
  match i, l with
  | _, [] => []
  | O, _ :: r => r
  | S j, x :: r => x :: remove_nth j r
  end.

Definition absorb (ss : Session) (others : list Suspended) (o : Outcome)
    : Session :=
  {| ui := state o;
     inflight := others ++ match rest o with Some k => [k] | None => [] end;
     effects := effects ss ++ calls o |}.

Definition with_ui (ss : Session) (st : State) : Session :=
  {| ui := st; inflight := inflight ss; effects := effects ss |}.

(** The submit button carries [disabled={isSubmitting}]: while it is
    disabled, activating it (or submitting the form from a field, which
    goes through the form's submit button) does not reach [handleSubmit]. *)
Definition step (ss : Session) (ev : Event) : Session :=
  match ev with
  | submit_activated now =>
      if isSubmitting (ui ss) then ss
      else absorb ss (inflight ss) (handleSubmit now (ui ss))
  | field_changed f v => with_ui ss (handleChange f v (ui ss))
  | image_chosen files => with_ui ss (handleImageChange files (ui ss))
  | mode_chosen t => with_ui ss (setUploadType t (ui ss))
  | upload_settled i a =>
      match nth_error (inflight ss) i with
      | Some (awaiting_upload fd budgetNum) =>
          absorb ss (remove_nth i (inflight ss))
            (resume_upload fd budgetNum a (ui ss))
      | _ => ss
      end
  | insert_settled i a =>
      match nth_error (inflight ss) i with
      | Some awaiting_insert =>
          absorb ss (remove_nth i (inflight ss)) (resume_insert a (ui ss))
      | _ => ss
      end
  end.

Definition run (ss : Session) (evs : list Event) : Session :=
  fold_left step evs ss.

End Handler.

(** ** The validator as the specification words it

    Six checks, each with its reason, tried in order; the reason of the first
    one that fires is the result. *)

Definition whitespace_only (s : JSString) : bool := forallb isWhiteSpace s.

Definition spec_checks : list ((State -> bool) * JSString) :=
  [ (fun s => is_file (uploadType s) && isNull (selectedImage s), msg_image);
    (fun s => is_url (uploadType s)
              && whitespace_only (productUrl (formData s)), msg_url);
    (fun s => whitespace_only (budget (formData s)), msg_budget);
    (fun s => whitespace_only (name (formData s)), msg_name);
    (fun s => whitespace_only (phone (formData s)), msg_phone);
    (fun s => isNaN (parseFloat (budget (formData s))), msg_invalid_budget) ].

Fixpoint first_failing (cs : list ((State -> bool) * JSString)) (s : State)
    : option JSString :=
  match cs with
  | [] => None
  | (fires, reason) :: r => if fires s then Some reason else first_failing r s
  end.

(** The five presence checks, without the check of the budget's number. *)
Definition presence_checks : list ((State -> bool) * JSString) :=
  firstn 5 spec_checks.

(** The rows handed to [insert] among the calls [l], in order. *)
Fixpoint inserted_rows (l : list Call) : list Submission.t :=
  match l with
  | [] => []
  | from_insert _ row :: r => row :: inserted_rows r
  | _ :: r => inserted_rows r
  end.

(** The attempt was acknowledged to the user. *)
Definition acknowledged (o : Outcome) : bool :=
  existsb (fun c => match c with alert _ => true | _ => false end) (calls o).

(** The shape of the sessions the events lead to: nothing is in flight and
    the flag is down, or one run of the handler is in flight and the flag is
    up. *)
Definition session_ok (ss : Session) : Prop :=
  (inflight ss = [] /\ isSubmitting (ui ss) = false)
  \/ (exists k, inflight ss = [k] /\ isSubmitting (ui ss) = true).

(** ** Reading the draft and the log *)

(** [formData[f]] *)
Definition get (f : Field) (d : FormData) : JSString :=
  match f with
  | f_productUrl => productUrl d
  | f_budget => budget d
  | f_material => material d
  | f_comments => comments d
  | f_name => name d
  | f_phone => phone d
  end.

Definition Field_eqb (f g : Field) : bool :=
  match f, g with
  | f_productUrl, f_productUrl | f_budget, f_budget
  | f_material, f_material | f_comments, f_comments
  | f_name, f_name | f_phone, f_phone => true
  | _, _ => false
  end.

(** The calls that leave the page for the storage or the table. *)
Definition is_network_call (c : Call) : bool :=
  match c with
  | storage_upload _ _ _ | storage_getPublicUrl _ _ | from_insert _ _ => true
  | _ => false
  end.


(** The number of activations of the submit button among the events. *)
Fixpoint submits (evs : list Event) : nat :=
  match evs with
  | [] => 0
  | submit_activated _ :: r => S (submits r)
  | _ :: r => submits r
  end.

(** The suspended runs that have not yet handed their row to [insert]. *)
Fixpoint pending_uploads (l : list Suspended) : nat :=
  match l with
  | [] => 0
  | awaiting_upload _ _ :: r => S (pending_uploads r)
  | awaiting_insert :: r => pending_uploads r
  end.

Definition present (v : option JSString) : bool :=
  match v with
  | Some (_ :: _) => true
  | _ => false
  end.

(** A row with an address, a budget that is a number, a name and a phone
    number. *)
Definition row_ok (r : Submission.t) : bool :=
  negb (isNull (Submission.product_url r))
  && negb (isNaN (Submission.budget r))
  && present (Submission.name r)
  && present (Submission.phone_number r).

(** The closure of a suspended run holds a draft whose name and phone are
    filled in and a budget that is a number. *)
Definition closure_ok (k : Suspended) : bool :=
  match k with
  | awaiting_upload fd b =>
      negb (whitespace_only (name fd))
      && negb (whitespace_only (phone fd))
      && negb (isNaN b)
  | awaiting_insert => true
  end.

(** A text that starts, after one optional sign, with [Infinity], with a
    digit, or with a point and a digit. *)
Definition numeric_start (s : JSString) : bool :=
  let r := match s with
           | [] => []
           | c :: r' => if (c =? 43) || (c =? 45) then r' else s
           end in
  starts_with (lit "Infinity") r
  || match r with
     | [] => false
     | c :: r' =>
         isDigit c
         || ((c =? 46) && match r' with [] => false | d :: _ => isDigit d end)
     end.

(** The sessions the events lead to, with the error message: nothing is in
    flight and the flag is down, or one run of the handler is in flight, the
    flag is up and no error message is set. *)
Definition session_shape (ss : Session) : Prop :=
  match inflight ss with
  | [] => isSubmitting (ui ss) = false
  | [_] => isSubmitting (ui ss) = true /\ submitError (ui ss) = []
  | _ :: _ :: _ => False
  end.

(** The rows handed over so far are well formed and so are the closures of
    the suspended runs. *)
Definition session_rows_ok (ss : Session) : bool :=
  forallb row_ok (inserted_rows (effects ss))
  && forallb closure_ok (inflight ss).

(** ** The module that creates the client ([src/lib/supabase.ts]) *)

Module Supabase.

Record Options := { persistSession : bool; schema : JSString }.

(** What evaluating the module does: the lines written to the console and
    the arguments [createClient] is called with. *)
Record Init := {
  logged : list JSString;
  supabaseUrl : JSString;
  supabaseAnonKey : JSString;
  options : Options
}.

(** [!process.env.X]: the variable is not set, or set to the empty string. *)
Definition missing (v : option JSString) : bool :=
  match v with
  | None => true
  | Some s => falsy s
  end.

(** [process.env.X || ''] *)
Definition or_empty (v : option JSString) : JSString :=
  match v with
  | None => []
  | Some s => if falsy s then [] else s
  end.

Definition msg_url := lit "Missing env.NEXT_PUBLIC_SUPABASE_URL".
Definition msg_key := lit "Missing env.NEXT_PUBLIC_SUPABASE_ANON_KEY".

Definition init (env_url env_key : option JSString) : Init :=
  {| logged := (if missing env_url then [msg_url] else [])
               ++ (if missing env_key then [msg_key] else []);
     supabaseUrl := or_empty env_url;
     supabaseAnonKey := or_empty env_key;
     options := {| persistSession := false; schema := lit "public" |} |}.

End Supabase.

(** ** Sample states *)

(** A draft in URL mode with every required field filled in and budget [b]. *)
Definition url_draft (b : JSString) : State :=
  {| formData :=
       {| productUrl := lit " https://x/y.png ";
          budget := b;
          material := [];
          comments := lit "  ";
          name := lit "Ann";
          phone := lit "555 0100" |};
     selectedImage := None;
     uploadType := url;
     isSubmitting := false;
     submitError := [] |}.

(** The same draft in FILE mode with an image chosen. *)
Definition file_draft (b : JSString) : State :=
  setUploadType file
    (setSelectedImage
       (Some {| File.name := lit "bag.png"; File.bytes := [137; 80; 78; 71] |})
       (url_draft b)).

(** A storage client whose public address of [path] in [bucket] is
    [https://x/bucket/path]. *)
Definition sample_publicUrl (bucket path : JSString) : JSString :=
  lit "https://x/" ++ bucket ++ lit "/" ++ path.

(** * Properties *)

(** ** The runtime functions on samples *)

Example parseFloat_samples :
  parseFloat (lit "12.5") = Decimal false 125 (-1)
  /\ parseFloat (lit "  -3e2x") = Decimal true 3 2
  /\ parseFloat (lit ".5") = Decimal false 5 (-1)
  /\ parseFloat (lit "7.") = Decimal false 7 0
  /\ parseFloat (lit "1e") = Decimal false 1 0
  /\ parseFloat (lit "12abc") = Decimal false 12 0
  /\ parseFloat (lit "abc") = NaN
  /\ parseFloat (lit ".") = NaN
  /\ parseFloat (lit "") = NaN
  /\ parseFloat (lit "-Infinity") = Infinity true
  /\ toString 1700000000000 = lit "1700000000000"
  /\ trim (lit "  a b  ") = lit "a b".
Proof. repeat split; reflexivity. Qed.

(** ** Trimming *)

Lemma trimStart_nil (s : JSString) :
  trimStart s = [] <-> whitespace_only s = true.
Proof.
  unfold whitespace_only.
  induction s as [|c r IH]; simpl.
  - tauto.
  - destruct (isWhiteSpace c); simpl.
    + exact IH.
    + split; discriminate.
Qed.

Lemma trimStart_head (s : JSString) (c : code_unit) (r : JSString) :
  trimStart s = c :: r -> isWhiteSpace c = false.
Proof.
  induction s as [|d t IH]; simpl.
  - discriminate.
  - destruct (isWhiteSpace d) eqn:E.
    + exact IH.
    + intros H. injection H as <- _. exact E.
Qed.

Lemma whitespace_only_rev (s : JSString) :
  whitespace_only (rev s) = whitespace_only s.
Proof.
  unfold whitespace_only.
  induction s as [|c r IH]; simpl.
  - reflexivity.
  - rewrite forallb_app, IH. simpl.
    rewrite andb_true_r. apply andb_comm.
Qed.

Lemma trim_nil (s : JSString) : trim s = [] <-> whitespace_only s = true.
Proof.
  unfold trim, trimEnd. split.
  - intros H.
    assert (H1 : trimStart (rev (trimStart s)) = []).
    { destruct (trimStart (rev (trimStart s))) as [|x l]; [reflexivity|].
      simpl in H. destruct (rev l); discriminate. }
    apply trimStart_nil in H1. rewrite whitespace_only_rev in H1.
    destruct (trimStart s) as [|c r] eqn:E.
    + apply trimStart_nil. exact E.
    + apply trimStart_head in E. simpl in H1. rewrite E in H1. discriminate.
  - intros H. apply trimStart_nil in H. rewrite H. reflexivity.
Qed.

Lemma falsy_trim (s : JSString) : falsy (trim s) = whitespace_only s.
Proof.
  destruct (whitespace_only s) eqn:E.
  - apply trim_nil in E. rewrite E. reflexivity.
  - destruct (trim s) as [|c r] eqn:T; [|reflexivity].
    apply trim_nil in T. congruence.
Qed.

Lemma or_null_trim (s : JSString) :
  or_null (trim s) = if whitespace_only s then None else Some (trim s).
Proof. unfold or_null. rewrite falsy_trim. reflexivity. Qed.

(** ** The validator *)

Lemma validate_first_failing (s : State) :
  validate s =
  match first_failing spec_checks s with
  | Some reason => inl reason
  | None => inr (parseFloat (budget (formData s)))
  end.
Proof.
  unfold validate, spec_checks, first_failing.
  rewrite !falsy_trim.
  destruct (is_file (uploadType s) && isNull (selectedImage s)); [reflexivity|].
  destruct (is_url (uploadType s)
            && whitespace_only (productUrl (formData s))); [reflexivity|].
  destruct (whitespace_only (budget (formData s))); [reflexivity|].
  destruct (whitespace_only (name (formData s))); [reflexivity|].
  destruct (whitespace_only (phone (formData s))); [reflexivity|].
  cbv zeta.
  destruct (isNaN (parseFloat (budget (formData s)))); reflexivity.
Qed.

Lemma validate_reason_nonempty (s : State) (reason : JSString) :
  validate s = inl reason -> falsy reason = false.
Proof.
  unfold validate.
  repeat match goal with
         | |- context [if ?b then _ else _] => destruct b
         end;
    intros H; inversion H; reflexivity.
Qed.

Lemma handleSubmit_invalid (now : N) (s : State) (reason : JSString) :
  validate s = inl reason ->
  handleSubmit now s =
  {| state := setIsSubmitting false
                (setSubmitError reason
                   (setSubmitError [] (setIsSubmitting true s)));
     calls := [];
     rest := None |}.
Proof. intros H. unfold handleSubmit. rewrite H. reflexivity. Qed.

Lemma handleSubmit_valid (now : N) (s : State) (budgetNum : JSNumber) :
  validate s = inr budgetNum ->
  handleSubmit now s =
  try_block now s budgetNum (setSubmitError [] (setIsSubmitting true s)).
Proof. intros H. unfold handleSubmit. rewrite H. reflexivity. Qed.

Lemma then_returned (o : Outcome) (f : Suspended -> State -> Outcome) :
  rest o = None -> then_ o f = o.
Proof. intros H. unfold then_. rewrite H. reflexivity. Qed.

Lemma attempt_invalid (publicUrl : JSString -> JSString -> JSString)
    (now : N) (up : UploadAnswer) (ins : InsertAnswer) (s : State)
    (reason : JSString) :
  validate s = inl reason ->
  attempt publicUrl now up ins s = handleSubmit now s.
Proof.
  intros H. unfold attempt.
  rewrite (handleSubmit_invalid now s reason H).
  rewrite !then_returned; reflexivity.
Qed.


(** C6: when a check of the validator fires, the attempt ends at once in the
    error state that carries the reason of the first check that fired; no
    call is made (no upload, no address resolution, no insert), nothing is
    left in flight, and the draft (the six text fields, the selected image
    and the mode) is what it was. *)
Theorem validation_failure_is_local
    (publicUrl : JSString -> JSString -> JSString)
    (now : N) (up : UploadAnswer) (ins : InsertAnswer)
    (s : State) (reason : JSString) :
  first_failing spec_checks s = Some reason ->
  let o := attempt publicUrl now up ins s in
  validate s = inl reason
  /\ lifecycle (state o) = ERROR reason
  /\ submitError (state o) = reason
  /\ calls o = []
  /\ rest o = None
  /\ formData (state o) = formData s
  /\ selectedImage (state o) = selectedImage s
  /\ uploadType (state o) = uploadType s.
Proof.
  intros Hff o.
  assert (Hv : validate s = inl reason).
  { rewrite validate_first_failing, Hff. reflexivity. }
  subst o. rewrite (attempt_invalid publicUrl now up ins s reason Hv).
  rewrite (handleSubmit_invalid now s reason Hv).
  split; [exact Hv|].
  split.
  { unfold lifecycle. simpl.
    rewrite (validate_reason_nonempty s reason Hv). reflexivity. }
  repeat split.
Qed.

(** In the initial state (FILE mode, nothing chosen) the first check fires. *)
Lemma validation_failure_is_local_witness :
  let o := attempt (fun _ path => path) 0 (upload_data [])
             insert_data initialState in
  validate initialState = inl msg_image
  /\ lifecycle (state o) = ERROR msg_image
  /\ submitError (state o) = msg_image
  /\ calls o = []
  /\ rest o = None
  /\ formData (state o) = formData initialState
  /\ selectedImage (state o) = selectedImage initialState
  /\ uploadType (state o) = uploadType initialState.
Proof.
  apply (validation_failure_is_local (fun _ path => path) 0 (upload_data [])
           insert_data initialState msg_image).
  reflexivity.
Defined.

(** ** The rows that reach the table *)

Lemma validate_image_present (s : State) (b : JSNumber) :
  validate s = inr b ->
  match uploadType s with
  | file => exists img, selectedImage s = Some img
  | url => trim (productUrl (formData s)) <> []
  end.
Proof.
  unfold validate.
  destruct (uploadType s); simpl.
  - destruct (selectedImage s) as [img|]; simpl.
    + intros _. exists img. reflexivity.
    + discriminate.
  - destruct (trim (productUrl (formData s))); simpl.
    + discriminate.
    + intros _. discriminate.
Qed.

Ltac attempt_cases s up ins :=
  let Hv := fresh "Hv" in
  let Himg := fresh "Himg" in
  let img := fresh "img" in
  unfold attempt, handleSubmit;
  destruct (validate s) as [?reason|?b] eqn:Hv;
  [ | pose proof (validate_image_present s _ Hv) as Himg;
      unfold try_block;
      destruct (uploadType s);
      [ destruct Himg as [img Himg]; rewrite Himg; destruct up, ins
      | destruct (selectedImage s); destruct ins ] ];
  cbn [then_ rest state calls resume resume_upload resume_insert
       start_insert catch_finally app].

(** Every row handed to [insert] in the course of one attempt: none when a
    check of the validator fires; in URL mode one row with the trimmed
    [productUrl]; in FILE mode one row with the public address of the
    uploaded object, and none when the upload fails. *)
Lemma attempt_inserted_rows
    (publicUrl : JSString -> JSString -> JSString)
    (now : N) (up : UploadAnswer) (ins : InsertAnswer) (s : State) :
  inserted_rows (calls (attempt publicUrl now up ins s)) =
  match validate s with
  | inl _ => []
  | inr b =>
      match uploadType s with
      | url => [row_of (formData s)
                  (Some (trim (productUrl (formData s)))) b]
      | file =>
          match up with
          | upload_data path =>
              [row_of (formData s)
                 (Some (publicUrl (lit "mvp_bucket") path)) b]
          | _ => []
          end
      end
  end.
Proof. attempt_cases s up ins; reflexivity. Qed.

(** The calls to the storage client in the course of one attempt. *)
Lemma attempt_storage_calls
    (publicUrl : JSString -> JSString -> JSString)
    (now : N) (up : UploadAnswer) (ins : InsertAnswer) (s : State) :
  filter is_storage_call (calls (attempt publicUrl now up ins s)) =
  match validate s, uploadType s, selectedImage s with
  | inr _, file, Some img =>
      storage_upload (lit "mvp_bucket")
        (toString now ++ lit "-" ++ File.name img) img
      :: match up with
         | upload_data path => [storage_getPublicUrl (lit "mvp_bucket") path]
         | _ => []
         end
  | _, _, _ => []
  end.
Proof. attempt_cases s up ins; reflexivity. Qed.

(** When the attempt is acknowledged: the checks passed and every awaited
    call answered with data. *)
Lemma attempt_acknowledged
    (publicUrl : JSString -> JSString -> JSString)
    (now : N) (up : UploadAnswer) (ins : InsertAnswer) (s : State) :
  acknowledged (attempt publicUrl now up ins s) =
  match validate s, uploadType s, up, ins with
  | inr _, url, _, insert_data => true
  | inr _, file, upload_data _, insert_data => true
  | _, _, _, _ => false
  end.
Proof. attempt_cases s up ins; reflexivity. Qed.


(** ** Failure of the insert *)

(** C1: what the page shows after a failed insert.  The table of codes gives
    [This submission already exists] for code 23505 and [Database error: ]
    followed by the detail for a code it does not list, but that text only
    becomes the message of the thrown [Error], which the [catch] block writes
    to the console; the message set in the state, the one the page shows, is
    the same general one for every code. *)
Theorem insert_failure_shows_general_message :
  (forall (code m : JSString) (st : State),
      let o := resume_insert (insert_error code m) st in
      lifecycle (state o) = ERROR msg_generic
      /\ calls o =
         [console_error (lit "Supabase insertion error:") m;
          console_error (lit "Error submitting form:")
            (insert_error_message code m)])
  /\ (forall m : JSString, insert_error_message (lit "23505") m = msg_exists)
  /\ insert_error_message (lit "99999") (lit "timeout")
     = lit "Database error: timeout"
  /\ msg_generic <> msg_exists
  /\ msg_generic <> lit "Database error: timeout".
Proof.
  split; [intros code m st; split; reflexivity|].
  split; [intros m; reflexivity|].
  split; [reflexivity|].
  split; intros H; vm_compute in H; discriminate H.
Qed.

(** ** The budget *)

(** C4, as the claim has it, fails: the text [Infinity] is not a finite
    decimal number, yet the validator accepts it and the row with the budget
    [Infinity] is handed to [insert]. *)
Lemma infinite_budget_is_accepted :
  let s := url_draft (lit "Infinity") in
  isFinite (parseFloat (budget (formData s))) = false
  /\ validate s = inr (Infinity false)
  /\ validate s <> inl msg_invalid_budget
  /\ inserted_rows (calls (handleSubmit 0 s)) =
     [row_of (formData s) (Some (lit "https://x/y.png")) (Infinity false)].
Proof.
  repeat split; try reflexivity.
  intros H. vm_compute in H. discriminate H.
Qed.

(** C4, amended: for every draft that passes the five presence checks and
    whose budget text [parseFloat] reads as [NaN] (a text with no decimal
    literal or [Infinity] at its start, after white space and a sign), the
    validator gives the invalid-budget reason, the attempt ends in the error
    state with it, and no call is made.  A draft that passes the presence
    checks with the budget text [12.5] passes validation, its budget is the
    number 12.5, and every row the attempt hands to [insert] carries that
    number. *)
Theorem invalid_budget_is_unreadable_budget
    (publicUrl : JSString -> JSString -> JSString)
    (now : N) (up : UploadAnswer) (ins : InsertAnswer) (s : State) :
  first_failing presence_checks s = None ->
  let o := attempt publicUrl now up ins s in
  match parseFloat (budget (formData s)) with
  | NaN =>
      validate s = inl msg_invalid_budget
      /\ lifecycle (state o) = ERROR msg_invalid_budget
      /\ calls o = []
  | b =>
      validate s = inr b
      /\ Forall (fun r => Submission.budget r = b) (inserted_rows (calls o))
  end
  /\ parseFloat (lit "12.5") = Decimal false 125 (-1)
  /\ (exists q, number_value (parseFloat (lit "12.5")) = Some q
                /\ (q == 25 # 2)%Q).
Proof.
  intros Hp o.
  assert (Hff : first_failing spec_checks s =
                if isNaN (parseFloat (budget (formData s)))
                then Some msg_invalid_budget else None).
  { unfold presence_checks, spec_checks, firstn, first_failing in Hp.
    unfold spec_checks, first_failing.
    repeat match type of Hp with
           | (if ?c then _ else _) = _ => destruct c; [discriminate Hp|]
           end.
    reflexivity. }
  split; [|split; [reflexivity|]].
  - pose proof (validate_first_failing s) as Hv. rewrite Hff in Hv.
    pose proof (attempt_inserted_rows publicUrl now up ins s) as Hrows.
    fold o in Hrows.
    destruct (parseFloat (budget (formData s))) as [|neg|neg m e] eqn:Hb;
      simpl in Hv.
    + split; [exact Hv|].
      pose proof (validation_shape := attempt_invalid publicUrl now up ins s
                                        msg_invalid_budget Hv).
      subst o. rewrite validation_shape.
      rewrite (handleSubmit_invalid now s msg_invalid_budget Hv).
      split; reflexivity.
    + split; [exact Hv|]. rewrite Hrows, Hv.
      destruct (uploadType s); [destruct up|]; repeat constructor.
    + split; [exact Hv|]. rewrite Hrows, Hv.
      destruct (uploadType s); [destruct up|]; repeat constructor.
  - exists (125 # 10)%Q. split; reflexivity.
Qed.

Lemma invalid_budget_is_unreadable_budget_witness :
  let s := url_draft (lit "abc") in
  let o := attempt sample_publicUrl 0 (upload_data []) insert_data s in
  match parseFloat (budget (formData s)) with
  | NaN =>
      validate s = inl msg_invalid_budget
      /\ lifecycle (state o) = ERROR msg_invalid_budget
      /\ calls o = []
  | b =>
      validate s = inr b
      /\ Forall (fun r => Submission.budget r = b) (inserted_rows (calls o))
  end
  /\ parseFloat (lit "12.5") = Decimal false 125 (-1)
  /\ (exists q, number_value (parseFloat (lit "12.5")) = Some q
                /\ (q == 25 # 2)%Q).
Proof.
  apply (invalid_budget_is_unreadable_budget sample_publicUrl 0
           (upload_data []) insert_data (url_draft (lit "abc"))).
  reflexivity.
Defined.

(** The amended statement at the budget text [12.5]: one row, budget 12.5. *)
Example budget_12_5_is_persisted :
  let s := url_draft (lit "12.5") in
  validate s = inr (Decimal false 125 (-1))
  /\ map Submission.budget
       (inserted_rows
          (calls (attempt sample_publicUrl 0 (upload_data []) insert_data s)))
     = [Decimal false 125 (-1)].
Proof. split; reflexivity. Qed.

(** The presence checks come first: a budget that cannot be read is not
    reported while a required field is missing. *)
Example unreadable_budget_behind_missing_name :
  validate (handleChange f_name [] (url_draft (lit "abc"))) = inl msg_name.
Proof. reflexivity. Qed.

(** ** The image address *)

(** C5: in URL mode no call goes to the storage client in the whole attempt
    (no upload, no address resolution), and every row handed to [insert]
    has the trimmed [productUrl] as its [product_url]; when the draft passes
    validation that text is not empty and exactly one such row is handed
    over, by the first stretch of the handler. *)
Theorem url_mode_skips_object_store
    (publicUrl : JSString -> JSString -> JSString)
    (now : N) (up : UploadAnswer) (ins : InsertAnswer) (s : State) :
  uploadType s = url ->
  let o := attempt publicUrl now up ins s in
  filter is_storage_call (calls o) = []
  /\ Forall (fun r => Submission.product_url r
                      = Some (trim (productUrl (formData s))))
       (inserted_rows (calls o))
  /\ match validate s with
     | inl _ => inserted_rows (calls o) = []
     | inr b =>
         trim (productUrl (formData s)) <> []
         /\ calls (handleSubmit now s) =
            [from_insert (lit "form_submissions")
               (row_of (formData s)
                  (Some (trim (productUrl (formData s)))) b)]
         /\ inserted_rows (calls o) =
            [row_of (formData s) (Some (trim (productUrl (formData s)))) b]
     end.
Proof.
  intros Hurl o.
  pose proof (attempt_storage_calls publicUrl now up ins s) as Hst.
  pose proof (attempt_inserted_rows publicUrl now up ins s) as Hrows.
  fold o in Hst, Hrows. rewrite Hurl in Hst, Hrows.
  split.
  { rewrite Hst. destruct (validate s); reflexivity. }
  split.
  { rewrite Hrows. destruct (validate s); repeat constructor. }
  destruct (validate s) as [reason|b] eqn:Hv.
  - exact Hrows.
  - pose proof (validate_image_present s b Hv) as Hne. rewrite Hurl in Hne.
    split; [exact Hne|]. split; [|exact Hrows].
    rewrite (handleSubmit_valid now s b Hv). unfold try_block.
    rewrite Hurl. destruct (selectedImage s); reflexivity.
Qed.

Lemma url_mode_skips_object_store_witness :
  let s := url_draft (lit "12.5") in
  let o := attempt sample_publicUrl 7 (upload_data []) insert_data s in
  filter is_storage_call (calls o) = []
  /\ Forall (fun r => Submission.product_url r
                      = Some (trim (productUrl (formData s))))
       (inserted_rows (calls o))
  /\ match validate s with
     | inl _ => inserted_rows (calls o) = []
     | inr b =>
         trim (productUrl (formData s)) <> []
         /\ calls (handleSubmit 7 s) =
            [from_insert (lit "form_submissions")
               (row_of (formData s)
                  (Some (trim (productUrl (formData s)))) b)]
         /\ inserted_rows (calls o) =
            [row_of (formData s) (Some (trim (productUrl (formData s)))) b]
     end.
Proof.
  apply (url_mode_skips_object_store sample_publicUrl 7 (upload_data [])
           insert_data (url_draft (lit "12.5"))).
  reflexivity.
Defined.

(** C10: for a draft that passes validation the [try] block never takes the
    path on which the image address stays [null]: in FILE mode an image is
    selected and the block starts the upload, in URL mode the trimmed
    [productUrl] is not empty and is the address.  Every row the attempt
    hands to [insert] has a [product_url] that is not [null]. *)
Theorem inserted_address_is_not_null
    (publicUrl : JSString -> JSString -> JSString)
    (now : N) (up : UploadAnswer) (ins : InsertAnswer)
    (s : State) (b : JSNumber) :
  validate s = inr b ->
  let o := attempt publicUrl now up ins s in
  Forall (fun r => Submission.product_url r <> None) (inserted_rows (calls o))
  /\ (forall st : State,
         try_block now s b st <> start_insert [] (formData s) None b st)
  /\ match uploadType s with
     | file =>
         (exists img, selectedImage s = Some img)
         /\ inserted_rows (calls o) =
            match up with
            | upload_data path =>
                [row_of (formData s)
                   (Some (publicUrl (lit "mvp_bucket") path)) b]
            | _ => []
            end
     | url =>
         trim (productUrl (formData s)) <> []
         /\ inserted_rows (calls o) =
            [row_of (formData s) (Some (trim (productUrl (formData s)))) b]
     end.
Proof.
  intros Hv o.
  pose proof (attempt_inserted_rows publicUrl now up ins s) as Hrows.
  fold o in Hrows. rewrite Hv in Hrows.
  pose proof (validate_image_present s b Hv) as Himg.
  split.
  { rewrite Hrows.
    destruct (uploadType s); [destruct up|];
      repeat constructor; simpl; discriminate. }
  split.
  { intros st. unfold try_block.
    destruct (uploadType s).
    - destruct Himg as [img ->]. intros H.
      apply (f_equal rest) in H. discriminate H.
    - destruct (selectedImage s); intros H;
        apply (f_equal calls) in H; discriminate H. }
  destruct (uploadType s); split; assumption.
Qed.

Lemma inserted_address_is_not_null_witness :
  let s := file_draft (lit "12.5") in
  let b := Decimal false 125 (-1) in
  let up := upload_data (lit "1-bag.png") in
  let o := attempt sample_publicUrl 1 up insert_data s in
  Forall (fun r => Submission.product_url r <> None) (inserted_rows (calls o))
  /\ (forall st : State,
         try_block 1 s b st <> start_insert [] (formData s) None b st)
  /\ match uploadType s with
     | file =>
         (exists img, selectedImage s = Some img)
         /\ inserted_rows (calls o) =
            match up with
            | upload_data path =>
                [row_of (formData s)
                   (Some (sample_publicUrl (lit "mvp_bucket") path)) b]
            | _ => []
            end
     | url =>
         trim (productUrl (formData s)) <> []
         /\ inserted_rows (calls o) =
            [row_of (formData s) (Some (trim (productUrl (formData s)))) b]
     end.
Proof.
  apply (inserted_address_is_not_null sample_publicUrl 1
           (upload_data (lit "1-bag.png")) insert_data
           (file_draft (lit "12.5")) (Decimal false 125 (-1))).
  reflexivity.
Defined.

(** Without the checks the path exists: the [try] block started in FILE mode
    with no image hands over a row whose address is [null]. *)
Example null_address_without_validation :
  let s := setUploadType file (url_draft (lit "12.5")) in
  map Submission.product_url
    (inserted_rows (calls (try_block 0 s (Decimal false 125 (-1)) s)))
  = [None].
Proof. reflexivity. Qed.

(** The public address the storage client resolves is the one inserted. *)
Example file_mode_inserts_public_address :
  map Submission.product_url
    (inserted_rows
       (calls (attempt (fun _ _ => lit "https://x/y.png") 1
                 (upload_data (lit "1-bag.png")) insert_data
                 (file_draft (lit "12.5")))))
  = [Some (lit "https://x/y.png")].
Proof. reflexivity. Qed.

(** ** Optional fields *)

Lemma or_null_trim_not_empty (s : JSString) : or_null (trim s) <> Some [].
Proof.
  unfold or_null. destruct (trim s); simpl; discriminate.
Qed.

(** C7: an acknowledged attempt handed exactly one row to [insert], and in
    it [material] and [extra_comments] are [null] when the draft's field is
    empty or only white space, the trimmed text otherwise; neither is ever
    the empty string. *)
Theorem optional_fields_normalize_to_null
    (publicUrl : JSString -> JSString -> JSString)
    (now : N) (up : UploadAnswer) (ins : InsertAnswer) (s : State) :
  let o := attempt publicUrl now up ins s in
  acknowledged o = true ->
  exists r : Submission.t,
    inserted_rows (calls o) = [r]
    /\ Submission.material r =
       (if whitespace_only (material (formData s)) then None
        else Some (trim (material (formData s))))
    /\ Submission.extra_comments r =
       (if whitespace_only (comments (formData s)) then None
        else Some (trim (comments (formData s))))
    /\ Submission.material r <> Some []
    /\ Submission.extra_comments r <> Some [].
Proof.
  intros o Hack.
  pose proof (attempt_acknowledged publicUrl now up ins s) as Ha.
  pose proof (attempt_inserted_rows publicUrl now up ins s) as Hrows.
  fold o in Ha, Hrows. rewrite Hack in Ha.
  destruct (validate s) as [reason|b]; [discriminate Ha|].
  assert (Hex : exists a, inserted_rows (calls o)
                          = [row_of (formData s) (Some a) b]).
  { destruct (uploadType s).
    - destruct up as [path| |]; try discriminate Ha.
      eexists. exact Hrows.
    - eexists. exact Hrows. }
  destruct Hex as [a Hr].
  exists (row_of (formData s) (Some a) b).
  split; [exact Hr|]. unfold row_of; simpl.
  rewrite <- !or_null_trim.
  repeat split; try reflexivity; apply or_null_trim_not_empty.
Qed.

Lemma optional_fields_normalize_to_null_witness :
  let s := url_draft (lit "12.5") in
  let o := attempt sample_publicUrl 0 (upload_data []) insert_data s in
  exists r : Submission.t,
    inserted_rows (calls o) = [r]
    /\ Submission.material r =
       (if whitespace_only (material (formData s)) then None
        else Some (trim (material (formData s))))
    /\ Submission.extra_comments r =
       (if whitespace_only (comments (formData s)) then None
        else Some (trim (comments (formData s))))
    /\ Submission.material r <> Some []
    /\ Submission.extra_comments r <> Some [].
Proof.
  apply (optional_fields_normalize_to_null sample_publicUrl 0
           (upload_data []) insert_data (url_draft (lit "12.5"))).
  reflexivity.
Defined.

Example optional_fields_of_sample :
  map (fun r => (Submission.material r, Submission.extra_comments r))
    (inserted_rows
       (calls (attempt sample_publicUrl 0 (upload_data []) insert_data
                 (url_draft (lit "12.5")))))
  = [(None, None)].
Proof. reflexivity. Qed.

(** ** The end of an attempt *)

Lemma resume_insert_data_resets (st : State) :
  state (resume_insert insert_data st) =
  setIsSubmitting false (setSelectedImage None (setFormData emptyFormData st)).
Proof. reflexivity. Qed.

Lemma attempt_acknowledged_state
    (publicUrl : JSString -> JSString -> JSString)
    (now : N) (up : UploadAnswer) (ins : InsertAnswer) (s : State) :
  acknowledged (attempt publicUrl now up ins s) = true ->
  state (attempt publicUrl now up ins s) =
  state (resume_insert insert_data
           (setSubmitError [] (setIsSubmitting true s))).
Proof.
  attempt_cases s up ins; intros H;
    first [discriminate H | reflexivity].
Qed.

(** C8: when an attempt is acknowledged (the insert answered with data), the
    draft in the state it leaves is the empty default: each of the six text
    fields is the empty string and no image is selected.  The same holds for
    the stretch of the handler that runs after the answer of the insert,
    whatever the state it resumes in. *)
Theorem success_resets_draft
    (publicUrl : JSString -> JSString -> JSString)
    (now : N) (up : UploadAnswer) (ins : InsertAnswer) (s : State) :
  let o := attempt publicUrl now up ins s in
  acknowledged o = true ->
  (formData (state o) = emptyFormData
   /\ productUrl (formData (state o)) = []
   /\ budget (formData (state o)) = []
   /\ material (formData (state o)) = []
   /\ comments (formData (state o)) = []
   /\ name (formData (state o)) = []
   /\ phone (formData (state o)) = []
   /\ selectedImage (state o) = None
   /\ lifecycle (state o) = IDLE)
  /\ (forall st : State,
         formData (state (resume_insert insert_data st)) = emptyFormData
         /\ selectedImage (state (resume_insert insert_data st)) = None).
Proof.
  intros o Hack. subst o.
  rewrite (attempt_acknowledged_state publicUrl now up ins s Hack).
  rewrite resume_insert_data_resets.
  split; [repeat split|].
  intros st. rewrite resume_insert_data_resets. split; reflexivity.
Qed.

Lemma success_resets_draft_witness :
  let o := attempt sample_publicUrl 1 (upload_data (lit "1-bag.png"))
             insert_data (file_draft (lit "12.5")) in
  (formData (state o) = emptyFormData
   /\ productUrl (formData (state o)) = []
   /\ budget (formData (state o)) = []
   /\ material (formData (state o)) = []
   /\ comments (formData (state o)) = []
   /\ name (formData (state o)) = []
   /\ phone (formData (state o)) = []
   /\ selectedImage (state o) = None
   /\ lifecycle (state o) = IDLE)
  /\ (forall st : State,
         formData (state (resume_insert insert_data st)) = emptyFormData
         /\ selectedImage (state (resume_insert insert_data st)) = None).
Proof.
  apply (success_resets_draft sample_publicUrl 1
           (upload_data (lit "1-bag.png")) insert_data
           (file_draft (lit "12.5"))).
  reflexivity.
Defined.

(** ** The submitting flag *)

Lemma handleSubmit_flag (now : N) (s : State) :
  match rest (handleSubmit now s) with
  | Some _ => isSubmitting (state (handleSubmit now s)) = true
  | None => isSubmitting (state (handleSubmit now s)) = false
  end.
Proof.
  unfold handleSubmit.
  destruct (validate s) as [reason|b] eqn:Hv; [reflexivity|].
  unfold try_block.
  pose proof (validate_image_present s b Hv) as Himg.
  destruct (uploadType s).
  - destruct Himg as [img ->]. reflexivity.
  - destruct (selectedImage s); reflexivity.
Qed.

Lemma resume_upload_flag
    (publicUrl : JSString -> JSString -> JSString)
    (fd : FormData) (b : JSNumber) (a : UploadAnswer) (st : State) :
  match rest (resume_upload publicUrl fd b a st) with
  | Some k =>
      k = awaiting_insert
      /\ isSubmitting (state (resume_upload publicUrl fd b a st))
         = isSubmitting st
  | None => isSubmitting (state (resume_upload publicUrl fd b a st)) = false
  end.
Proof. destruct a; simpl; auto. Qed.

Lemma resume_insert_flag (a : InsertAnswer) (st : State) :
  rest (resume_insert a st) = None
  /\ isSubmitting (state (resume_insert a st)) = false.
Proof. destruct a; simpl; auto. Qed.


(** ** Sessions *)

Section Sessions.

Variable publicUrl : JSString -> JSString -> JSString.

Lemma initialSession_ok : session_ok initialSession.
Proof. left. split; reflexivity. Qed.

Lemma absorb_ok (ss : Session) (o : Outcome) :
  match rest o with
  | Some _ => isSubmitting (state o) = true
  | None => isSubmitting (state o) = false
  end ->
  session_ok (absorb ss [] o).
Proof.
  unfold session_ok, absorb. simpl.
  destruct (rest o) as [k|]; intros H.
  - right. exists k. split; [reflexivity|exact H].
  - left. split; [reflexivity|exact H].
Qed.

Lemma nth_error_singleton {A} (k x : A) (i : nat) :
  nth_error [k] i = Some x -> i = 0%nat /\ x = k.
Proof.
  destruct i as [|[|i]]; simpl; intros H;
    [injection H as <-; split; reflexivity | discriminate H | discriminate H].
Qed.

Lemma step_ok (ss : Session) (ev : Event) :
  session_ok ss -> session_ok (step publicUrl ss ev).
Proof.
  intros Hok.
  destruct ev as [now|f v|files|t|i a|i a]; simpl.
  - destruct (isSubmitting (ui ss)) eqn:Hsub; [exact Hok|].
    destruct Hok as [[Hin _]|[k [_ Hup]]]; [|congruence].
    rewrite Hin. apply absorb_ok. apply handleSubmit_flag.
  - exact Hok.
  - destruct files; exact Hok.
  - exact Hok.
  - destruct (nth_error (inflight ss) i) as [[fd b|]|] eqn:Hnth;
      try exact Hok.
    destruct Hok as [[Hin _]|[k [Hin Hup]]].
    + rewrite Hin in Hnth. destruct i; discriminate Hnth.
    + rewrite Hin in Hnth. apply nth_error_singleton in Hnth.
      destruct Hnth as [-> _]. rewrite Hin. simpl remove_nth.
      apply absorb_ok.
      pose proof (resume_upload_flag publicUrl fd b a (ui ss)) as H.
      destruct (rest (resume_upload publicUrl fd b a (ui ss)));
        [destruct H as [_ ->]; exact Hup | exact H].
  - destruct (nth_error (inflight ss) i) as [[fd b|]|] eqn:Hnth;
      try exact Hok.
    destruct Hok as [[Hin _]|[k [Hin Hup]]].
    + rewrite Hin in Hnth. destruct i; discriminate Hnth.
    + rewrite Hin in Hnth. apply nth_error_singleton in Hnth.
      destruct Hnth as [-> _]. rewrite Hin. simpl remove_nth.
      apply absorb_ok.
      destruct (resume_insert_flag a (ui ss)) as [-> H]. exact H.
Qed.

Lemma run_ok (evs : list Event) (ss : Session) :
  session_ok ss -> session_ok (run publicUrl ss evs).
Proof.
  revert ss. induction evs as [|ev evs IH]; intros ss Hok; simpl.
  - exact Hok.
  - apply IH, step_ok, Hok.
Qed.

(** Every session the page can be in has the shape [session_ok]. *)
Lemma reachable_ok (evs : list Event) :
  session_ok (run publicUrl initialSession evs).
Proof. apply run_ok, initialSession_ok. Qed.

Lemma submit_while_submitting (ss : Session) (now : N) :
  isSubmitting (ui ss) = true ->
  step publicUrl ss (submit_activated now) = ss.
Proof. intros H. simpl. rewrite H. reflexivity. Qed.

(** A first activation, the answers of the two awaited calls, and nothing
    else in between, is one [attempt]. *)
Lemma run_one_attempt (ss : Session) (now : N)
    (up : UploadAnswer) (ins : InsertAnswer) :
  inflight ss = [] ->
  isSubmitting (ui ss) = false ->
  run publicUrl ss
    [submit_activated now; upload_settled 0 up; insert_settled 0 ins]
  = {| ui := state (attempt publicUrl now up ins (ui ss));
       inflight := [];
       effects := effects ss
                    ++ calls (attempt publicUrl now up ins (ui ss)) |}.
Proof.
  intros Hin Hsub. unfold run. cbn [fold_left].
  cbn [step]. rewrite Hsub, Hin.
  attempt_cases (ui ss) up ins;
    unfold absorb;
    cbn [step ui inflight effects state calls rest app nth_error
         remove_nth resume_upload resume_insert start_insert
         catch_finally];
    rewrite <- ?app_assoc; try rewrite app_nil_r; reflexivity.
Qed.

End Sessions.

Lemma handleSubmit_suspended_valid (now : N) (s : State) (k : Suspended) :
  rest (handleSubmit now s) = Some k -> exists b, validate s = inr b.
Proof.
  destruct (validate s) as [reason|b] eqn:Hv.
  - rewrite (handleSubmit_invalid now s reason Hv). discriminate.
  - intros _. exists b. reflexivity.
Qed.

(** C2: while an attempt is in flight the page is in the submitting state,
    where the submit button is disabled, and activating it again changes
    nothing: the session after the second activation is the session before
    it, so whatever follows runs as if there had been one activation.  With
    the answers of the awaited calls, the two activations together amount to
    one attempt, and that attempt hands one row to [insert] (none when the
    upload of FILE mode fails). *)
Theorem second_submit_is_ignored
    (publicUrl : JSString -> JSString -> JSString)
    (ss : Session) (now1 now2 : N)
    (up : UploadAnswer) (ins : InsertAnswer) :
  session_ok ss ->
  inflight ss = [] ->
  let ss1 := step publicUrl ss (submit_activated now1) in
  inflight ss1 <> [] ->
  let o := attempt publicUrl now1 up ins (ui ss) in
  let final :=
    run publicUrl ss
      [submit_activated now1; submit_activated now2;
       upload_settled 0 up; insert_settled 0 ins] in
  lifecycle (ui ss1) = SUBMITTING
  /\ step publicUrl ss1 (submit_activated now2) = ss1
  /\ (forall later : list Event,
         run publicUrl ss
           (submit_activated now1 :: submit_activated now2 :: later)
         = run publicUrl ss (submit_activated now1 :: later))
  /\ inflight final = []
  /\ effects final = effects ss ++ calls o
  /\ List.length (inserted_rows (calls o)) =
     match uploadType (ui ss), up with
     | file, upload_data _ => 1%nat
     | file, _ => 0%nat
     | url, _ => 1%nat
     end
  /\ (forall (st : State) (waiting : list Suspended) (done : list Call)
             (now : N),
         let busy := {| ui := setIsSubmitting true st;
                        inflight := waiting; effects := done |} in
         lifecycle (ui busy) = SUBMITTING
         /\ step publicUrl busy (submit_activated now) = busy).
Proof.
  intros Hok Hin ss1 Hout o final.
  assert (Hidle : isSubmitting (ui ss) = false).
  { destruct Hok as [[_ H]|[k [H _]]]; [exact H|].
    rewrite Hin in H. discriminate H. }
  assert (Hss1 : ss1 = absorb ss [] (handleSubmit now1 (ui ss))).
  { subst ss1. simpl. rewrite Hidle, Hin. reflexivity. }
  destruct (rest (handleSubmit now1 (ui ss))) as [k|] eqn:Hrest.
  2:{ exfalso. apply Hout. rewrite Hss1. unfold absorb. simpl.
      rewrite Hrest. reflexivity. }
  assert (Hbusy : isSubmitting (ui ss1) = true).
  { pose proof (handleSubmit_flag now1 (ui ss)) as H.
    rewrite Hrest in H. rewrite Hss1. exact H. }
  assert (Hnoop : step publicUrl ss1 (submit_activated now2) = ss1).
  { apply submit_while_submitting. exact Hbusy. }
  assert (Hsame : forall later : list Event,
             run publicUrl ss
               (submit_activated now1 :: submit_activated now2 :: later)
             = run publicUrl ss (submit_activated now1 :: later)).
  { intros later. unfold run. cbn [fold_left].
    fold ss1. rewrite Hnoop. reflexivity. }
  split. { unfold lifecycle. rewrite Hbusy. reflexivity. }
  split. { exact Hnoop. }
  split. { exact Hsame. }
  assert (Hfinal : final =
                   {| ui := state o; inflight := [];
                      effects := effects ss ++ calls o |}).
  { subst final o. rewrite Hsame.
    apply run_one_attempt; assumption. }
  split. { rewrite Hfinal. reflexivity. }
  split. { rewrite Hfinal. reflexivity. }
  split.
  { destruct (handleSubmit_suspended_valid now1 (ui ss) k Hrest) as [b Hv].
    subst o. rewrite attempt_inserted_rows, Hv.
    destruct (uploadType (ui ss)); [destruct up|]; reflexivity. }
  intros st waiting done now busy. split; reflexivity.
Qed.

Lemma second_submit_is_ignored_witness :
  let ss := {| ui := url_draft (lit "12.5"); inflight := [];
               effects := [] |} in
  let ss1 := step sample_publicUrl ss (submit_activated 1) in
  let o := attempt sample_publicUrl 1 (upload_data []) insert_data (ui ss) in
  let final :=
    run sample_publicUrl ss
      [submit_activated 1; submit_activated 2;
       upload_settled 0 (upload_data []); insert_settled 0 insert_data] in
  lifecycle (ui ss1) = SUBMITTING
  /\ step sample_publicUrl ss1 (submit_activated 2) = ss1
  /\ (forall later : list Event,
         run sample_publicUrl ss
           (submit_activated 1 :: submit_activated 2 :: later)
         = run sample_publicUrl ss (submit_activated 1 :: later))
  /\ inflight final = []
  /\ effects final = effects ss ++ calls o
  /\ List.length (inserted_rows (calls o)) =
     match uploadType (ui ss), upload_data [] with
     | file, upload_data _ => 1%nat
     | file, _ => 0%nat
     | url, _ => 1%nat
     end
  /\ (forall (st : State) (waiting : list Suspended) (done : list Call)
             (now : N),
         let busy := {| ui := setIsSubmitting true st;
                        inflight := waiting; effects := done |} in
         lifecycle (ui busy) = SUBMITTING
         /\ step sample_publicUrl busy (submit_activated now) = busy).
Proof.
  apply (second_submit_is_ignored sample_publicUrl
           {| ui := url_draft (lit "12.5"); inflight := []; effects := [] |}
           1 2 (upload_data []) insert_data).
  - left. split; reflexivity.
  - reflexivity.
  - simpl. discriminate.
Defined.

(** Two activations in a row on the sample draft: one row reaches the
    table. *)
Example double_activation_inserts_once :
  List.length
    (inserted_rows
       (effects
          (run sample_publicUrl
             {| ui := url_draft (lit "12.5"); inflight := [];
                effects := [] |}
             [submit_activated 1; submit_activated 2;
              insert_settled 0 insert_data])))
  = 1%nat.
Proof. reflexivity. Qed.

(** The guard is the disabled button: [handleSubmit] itself does not look at
    the flag, and run on a state whose flag is up it hands a row to
    [insert] like on any other. *)
Example handleSubmit_does_not_test_the_flag :
  List.length
    (inserted_rows
       (calls (handleSubmit 2 (setIsSubmitting true (url_draft (lit "12.5"))))))
  = 1%nat.
Proof. reflexivity. Qed.

(** * Further properties of the page *)

(** ** Editing the draft *)

(** X1: [handleChange] writes the one field it is called for: afterwards that
    field reads the new text, every other field reads what it read before,
    and the selected image, the mode, the submitting flag and the error
    message are untouched. *)
Theorem handleChange_writes_one_field
    (f g : Field) (v : JSString) (s : State) :
  get g (formData (handleChange f v s)) =
    (if Field_eqb f g then v else get g (formData s))
  /\ selectedImage (handleChange f v s) = selectedImage s
  /\ uploadType (handleChange f v s) = uploadType s
  /\ isSubmitting (handleChange f v s) = isSubmitting s
  /\ submitError (handleChange f v s) = submitError s.
Proof.
  split; [destruct f, g; reflexivity|].
  destruct f; repeat split.
Qed.

(** X2: of two edits in a row, each made on the state the one before it
    left, the later one wins on the same field, and edits of different
    fields give the same draft in either order. *)
Theorem handleChange_composes
    (f g : Field) (v w : JSString) (s : State) :
  handleChange f v (handleChange f w s) = handleChange f v s
  /\ (if Field_eqb f g then True
      else handleChange f v (handleChange g w s)
           = handleChange g w (handleChange f v s)).
Proof.
  split; [destruct f; reflexivity|].
  destruct f, g; simpl; auto.
Qed.

(** ** The selected image *)

(** X3: once an image is selected, no event takes the selection away except
    the success of an insert: choosing files replaces it or (with no file
    chosen) keeps it, edits, mode changes, activations of the submit button
    and every failing answer keep it. *)
Theorem image_cleared_only_by_success
    (publicUrl : JSString -> JSString -> JSString)
    (ss : Session) (ev : Event) (img : File.t) :
  selectedImage (ui ss) = Some img ->
  selectedImage (ui (step publicUrl ss ev)) = None ->
  exists i, ev = insert_settled i insert_data.
Proof.
  intros Hsel Hnone.
  destruct ev as [now|f v|files|t|i a|i a]; simpl in Hnone.
  - destruct (isSubmitting (ui ss)); [congruence|].
    unfold handleSubmit, try_block in Hnone.
    destruct (validate (ui ss)); simpl in Hnone; [congruence|].
    rewrite Hsel in Hnone.
    destruct (uploadType (ui ss)); simpl in Hnone; congruence.
  - destruct f; simpl in Hnone; congruence.
  - destruct files; simpl in Hnone; congruence.
  - congruence.
  - destruct (nth_error (inflight ss) i) as [[fd b|]|]; try congruence.
    destruct a; simpl in Hnone; congruence.
  - destruct (nth_error (inflight ss) i) as [[fd b|]|]; try congruence.
    destruct a as [|code m|reason]; simpl in Hnone; try congruence.
    exists i. reflexivity.
Qed.

Lemma image_cleared_only_by_success_witness :
  exists i, insert_settled 0 insert_data = insert_settled i insert_data.
Proof.
  apply (image_cleared_only_by_success sample_publicUrl
           {| ui := setIsSubmitting true (file_draft (lit "12.5"));
              inflight := [awaiting_insert]; effects := [] |}
           (insert_settled 0 insert_data)
           {| File.name := lit "bag.png"; File.bytes := [137; 80; 78; 71] |});
    reflexivity.
Defined.

(** ** The field of the other mode *)

Lemma validate_ignores_productUrl_in_file_mode (v : JSString) (s : State) :
  uploadType s = file ->
  validate (handleChange f_productUrl v s) = validate s.
Proof.
  intros Hfile. unfold validate. simpl. rewrite Hfile. reflexivity.
Qed.

(** X4: in FILE mode the text of [productUrl] plays no part: whatever it is,
    the validator gives the same result and the attempt makes the same
    calls, with the same rows. *)
Theorem file_mode_ignores_productUrl
    (publicUrl : JSString -> JSString -> JSString)
    (now : N) (up : UploadAnswer) (ins : InsertAnswer)
    (v : JSString) (s : State) :
  uploadType s = file ->
  validate (handleChange f_productUrl v s) = validate s
  /\ calls (attempt publicUrl now up ins (handleChange f_productUrl v s))
     = calls (attempt publicUrl now up ins s).
Proof.
  intros Hfile.
  pose proof (validate_ignores_productUrl_in_file_mode v s Hfile) as Hv.
  split; [exact Hv|].
  unfold attempt, handleSubmit. rewrite Hv.
  destruct (validate s) as [reason|b]; [reflexivity|].
  unfold try_block. simpl uploadType. simpl selectedImage. rewrite Hfile.
  destruct (selectedImage s) as [img|]; destruct up, ins; reflexivity.
Qed.

Lemma file_mode_ignores_productUrl_witness :
  let s := file_draft (lit "12.5") in
  let up := upload_data (lit "1-bag.png") in
  validate (handleChange f_productUrl (lit "other") s) = validate s
  /\ calls (attempt sample_publicUrl 1 up insert_data
              (handleChange f_productUrl (lit "other") s))
     = calls (attempt sample_publicUrl 1 up insert_data s).
Proof.
  apply (file_mode_ignores_productUrl sample_publicUrl 1
           (upload_data (lit "1-bag.png")) insert_data (lit "other")
           (file_draft (lit "12.5"))).
  reflexivity.
Defined.

(** X5: in URL mode the selected image plays no part: with any image or
    none, the validator gives the same result and the attempt makes the same
    calls. *)
Theorem url_mode_ignores_selected_image
    (publicUrl : JSString -> JSString -> JSString)
    (now : N) (up : UploadAnswer) (ins : InsertAnswer)
    (w : option File.t) (s : State) :
  uploadType s = url ->
  validate (setSelectedImage w s) = validate s
  /\ calls (attempt publicUrl now up ins (setSelectedImage w s))
     = calls (attempt publicUrl now up ins s).
Proof.
  intros Hurl.
  assert (Hv : validate (setSelectedImage w s) = validate s).
  { unfold validate. simpl. rewrite Hurl. reflexivity. }
  split; [exact Hv|].
  unfold attempt, handleSubmit. rewrite Hv.
  destruct (validate s) as [reason|b]; [reflexivity|].
  unfold try_block. simpl uploadType. simpl selectedImage. rewrite Hurl.
  destruct w, (selectedImage s); destruct ins; reflexivity.
Qed.

Lemma url_mode_ignores_selected_image_witness :
  let s := url_draft (lit "12.5") in
  let w := Some {| File.name := lit "bag.png"; File.bytes := [] |} in
  validate (setSelectedImage w s) = validate s
  /\ calls (attempt sample_publicUrl 1 (upload_data []) insert_data
              (setSelectedImage w s))
     = calls (attempt sample_publicUrl 1 (upload_data []) insert_data s).
Proof.
  apply (url_mode_ignores_selected_image sample_publicUrl 1 (upload_data [])
           insert_data
           (Some {| File.name := lit "bag.png"; File.bytes := [] |})
           (url_draft (lit "12.5"))).
  reflexivity.
Defined.

(** ** The order of the network calls *)

(** X6: the calls an attempt sends out, in order.  None when a check of the
    validator fires.  In URL mode the insert alone.  In FILE mode the upload
    first; the address resolution and then the insert follow only when the
    upload answered with data, and the row carries the address resolved for
    the path the upload returned.  No call is ever made twice. *)
Theorem network_calls_in_sequence
    (publicUrl : JSString -> JSString -> JSString)
    (now : N) (up : UploadAnswer) (ins : InsertAnswer) (s : State) :
  filter is_network_call (calls (attempt publicUrl now up ins s)) =
  match validate s, uploadType s, selectedImage s with
  | inl _, _, _ => []
  | inr b, url, _ =>
      [from_insert (lit "form_submissions")
         (row_of (formData s) (Some (trim (productUrl (formData s)))) b)]
  | inr b, file, Some img =>
      storage_upload (lit "mvp_bucket")
        (toString now ++ lit "-" ++ File.name img) img
      :: match up with
         | upload_data path =>
             [storage_getPublicUrl (lit "mvp_bucket") path;
              from_insert (lit "form_submissions")
                (row_of (formData s)
                   (Some (publicUrl (lit "mvp_bucket") path)) b)]
         | _ => []
         end
  | inr _, file, None => []
  end.
Proof.
  unfold attempt, handleSubmit.
  destruct (validate s) as [reason|b] eqn:Hv; [reflexivity|].
  pose proof (validate_image_present s b Hv) as Himg.
  unfold try_block.
  destruct (uploadType s).
  - destruct Himg as [img ->]. destruct up, ins; reflexivity.
  - destruct (selectedImage s); destruct ins; reflexivity.
Qed.

(** ** Failure after validation *)

(** X7: when a draft passes validation and the attempt is not acknowledged
    (the upload answered with an error or its promise rejected, or the
    insert did), the page ends in the error state with the one general
    message, no acknowledgement is shown, and the draft is kept as it was:
    the six fields, the selected image and the mode. *)
Theorem failure_keeps_draft
    (publicUrl : JSString -> JSString -> JSString)
    (now : N) (up : UploadAnswer) (ins : InsertAnswer)
    (s : State) (b : JSNumber) :
  validate s = inr b ->
  let o := attempt publicUrl now up ins s in
  acknowledged o = false ->
  state o = setIsSubmitting false (setSubmitError msg_generic s)
  /\ lifecycle (state o) = ERROR msg_generic
  /\ formData (state o) = formData s
  /\ selectedImage (state o) = selectedImage s
  /\ uploadType (state o) = uploadType s.
Proof.
  intros Hv o Hack.
  assert (Hstate : state o
                   = setIsSubmitting false (setSubmitError msg_generic s)).
  { subst o. revert Hack. unfold attempt, handleSubmit. rewrite Hv.
    pose proof (validate_image_present s b Hv) as Himg.
    unfold try_block.
    destruct (uploadType s).
    - destruct Himg as [img ->].
      destruct up, ins; simpl; intros H;
        first [discriminate H | reflexivity].
    - destruct (selectedImage s); destruct ins; simpl; intros H;
        first [discriminate H | reflexivity]. }
  rewrite Hstate. repeat split.
Qed.

Lemma failure_keeps_draft_witness :
  let s := file_draft (lit "12.5") in
  let o := attempt sample_publicUrl 1 (upload_error (lit "too large"))
             insert_data s in
  state o = setIsSubmitting false (setSubmitError msg_generic s)
  /\ lifecycle (state o) = ERROR msg_generic
  /\ formData (state o) = formData s
  /\ selectedImage (state o) = selectedImage s
  /\ uploadType (state o) = uploadType s.
Proof.
  apply (failure_keeps_draft sample_publicUrl 1
           (upload_error (lit "too large")) insert_data
           (file_draft (lit "12.5")) (Decimal false 125 (-1)));
    reflexivity.
Defined.

(** X8: an acknowledged attempt leaves the page as it was first rendered,
    except for the mode, which stays as the user chose it. *)
Theorem success_returns_to_initial_state
    (publicUrl : JSString -> JSString -> JSString)
    (now : N) (up : UploadAnswer) (ins : InsertAnswer) (s : State) :
  let o := attempt publicUrl now up ins s in
  acknowledged o = true ->
  state o = setUploadType (uploadType s) initialState
  /\ calls o <> []
  /\ last (calls o) (alert []) = alert msg_thanks.
Proof.
  intros o Hack. subst o.
  split.
  { rewrite (attempt_acknowledged_state publicUrl now up ins s Hack).
    reflexivity. }
  revert Hack.
  attempt_cases s up ins; intros H; try discriminate H;
    (split; [discriminate|reflexivity]).
Qed.

Lemma success_returns_to_initial_state_witness :
  let s := url_draft (lit "12.5") in
  let o := attempt sample_publicUrl 1 (upload_data []) insert_data s in
  state o = setUploadType (uploadType s) initialState
  /\ calls o <> []
  /\ last (calls o) (alert []) = alert msg_thanks.
Proof.
  apply (success_returns_to_initial_state sample_publicUrl 1 (upload_data [])
           insert_data (url_draft (lit "12.5"))).
  reflexivity.
Defined.

(** ** Any sequence of events *)

Lemma inserted_rows_app (a b : list Call) :
  inserted_rows (a ++ b) = inserted_rows a ++ inserted_rows b.
Proof.
  induction a as [|c a IH]; simpl; [reflexivity|].
  destruct c; simpl; rewrite IH; reflexivity.
Qed.

Lemma pending_uploads_app (a b : list Suspended) :
  pending_uploads (a ++ b) = (pending_uploads a + pending_uploads b)%nat.
Proof.
  induction a as [|k a IH]; simpl; [reflexivity|].
  destruct k; simpl; rewrite IH; reflexivity.
Qed.

Lemma pending_uploads_remove_upload (l : list Suspended) (i : nat)
    (fd : FormData) (b : JSNumber) :
  nth_error l i = Some (awaiting_upload fd b) ->
  pending_uploads l = S (pending_uploads (remove_nth i l)).
Proof.
  revert i. induction l as [|k l IH]; intros i H.
  - destruct i; discriminate H.
  - destruct i as [|i]; simpl in H.
    + injection H as ->. reflexivity.
    + simpl. rewrite (IH i H). destruct k; reflexivity.
Qed.

Lemma pending_uploads_remove_insert (l : list Suspended) (i : nat) :
  nth_error l i = Some awaiting_insert ->
  pending_uploads (remove_nth i l) = pending_uploads l.
Proof.
  revert i. induction l as [|k l IH]; intros i H.
  - destruct i; discriminate H.
  - destruct i as [|i]; simpl in H.
    + injection H as ->. reflexivity.
    + simpl. rewrite (IH i H). reflexivity.
Qed.

Lemma forallb_remove_nth {A} (f : A -> bool) (l : list A) (i : nat) :
  forallb f l = true -> forallb f (remove_nth i l) = true.
Proof.
  revert i. induction l as [|x l IH]; intros i H.
  - destruct i; reflexivity.
  - simpl in H. apply andb_true_iff in H. destruct H as [Hx Hl].
    destruct i as [|i]; simpl; [exact Hl|].
    rewrite Hx. apply IH. exact Hl.
Qed.

Lemma forallb_nth_error {A} (f : A -> bool) (l : list A) (i : nat) (x : A) :
  forallb f l = true -> nth_error l i = Some x -> f x = true.
Proof.
  intros H Hn. rewrite forallb_forall in H. apply H.
  apply nth_error_In with i. exact Hn.
Qed.

Lemma validate_required_fields (s : State) (b : JSNumber) :
  validate s = inr b ->
  whitespace_only (name (formData s)) = false
  /\ whitespace_only (phone (formData s)) = false
  /\ isNaN b = false.
Proof.
  unfold validate. rewrite !falsy_trim.
  destruct (is_file (uploadType s) && isNull (selectedImage s));
    [discriminate|].
  destruct (is_url (uploadType s)
            && whitespace_only (productUrl (formData s))); [discriminate|].
  destruct (whitespace_only (budget (formData s))); [discriminate|].
  destruct (whitespace_only (name (formData s))); [discriminate|].
  destruct (whitespace_only (phone (formData s))); [discriminate|].
  cbv zeta.
  destruct (isNaN (parseFloat (budget (formData s)))) eqn:E; [discriminate|].
  intros H. injection H as <-. auto.
Qed.

Lemma present_or_null_trim (s : JSString) :
  whitespace_only s = false -> present (or_null (trim s)) = true.
Proof.
  intros H. rewrite or_null_trim, H.
  destruct (trim s) eqn:E; [|reflexivity].
  apply trim_nil in E. congruence.
Qed.

Lemma row_of_ok (fd : FormData) (a : JSString) (b : JSNumber) :
  closure_ok (awaiting_upload fd b) = true ->
  row_ok (row_of fd (Some a) b) = true.
Proof.
  simpl. rewrite !andb_true_iff, !negb_true_iff.
  intros [[Hn Hp] Hb]. unfold row_ok, row_of. simpl.
  rewrite Hb, (present_or_null_trim _ Hn), (present_or_null_trim _ Hp).
  reflexivity.
Qed.

Lemma validate_closure_ok (s : State) (b : JSNumber) :
  validate s = inr b -> closure_ok (awaiting_upload (formData s) b) = true.
Proof.
  intros Hv. destruct (validate_required_fields s b Hv) as [Hn [Hp Hb]].
  simpl. rewrite Hn, Hp, Hb. reflexivity.
Qed.

Section Interleavings.

Variable publicUrl : JSString -> JSString -> JSString.

Lemma run_app (ss : Session) (a b : list Event) :
  run publicUrl ss (a ++ b) = run publicUrl (run publicUrl ss a) b.
Proof. unfold run. apply fold_left_app. Qed.

Lemma handleSubmit_shape (now : N) (s : State) :
  match rest (handleSubmit now s) with
  | Some _ =>
      isSubmitting (state (handleSubmit now s)) = true
      /\ submitError (state (handleSubmit now s)) = []
  | None => isSubmitting (state (handleSubmit now s)) = false
  end.
Proof.
  unfold handleSubmit.
  destruct (validate s) as [reason|b] eqn:Hv; [reflexivity|].
  unfold try_block.
  destruct (uploadType s), (selectedImage s); simpl; auto.
Qed.

Lemma step_shape (ss : Session) (ev : Event) :
  session_shape ss -> session_shape (step publicUrl ss ev).
Proof.
  unfold session_shape. intros H.
  destruct ev as [now|f v|files|t|i a|i a]; simpl.
  - remember (isSubmitting (ui ss)) as sub eqn:Hsub in |- *.
    destruct sub; [exact H|].
    destruct (inflight ss) as [|k [|k' l]]; [|destruct H; congruence|tauto].
    pose proof (handleSubmit_shape now (ui ss)) as Ho.
    unfold absorb. simpl.
    destruct (rest (handleSubmit now (ui ss))); exact Ho.
  - destruct f; exact H.
  - destruct files; exact H.
  - exact H.
  - destruct (nth_error (inflight ss) i) as [[fd b|]|] eqn:Hn; try exact H.
    destruct (inflight ss) as [|k [|k' l]]; [| |tauto].
    + destruct i; discriminate Hn.
    + destruct i as [|[|i]]; try discriminate Hn.
      destruct a; simpl; tauto.
  - destruct (nth_error (inflight ss) i) as [[fd b|]|] eqn:Hn; try exact H.
    destruct (inflight ss) as [|k [|k' l]]; [| |tauto].
    + destruct i; discriminate Hn.
    + destruct i as [|[|i]]; try discriminate Hn.
      destruct a; simpl; tauto.
Qed.

(** X9: whatever the user does and however the calls are answered, from the
    first rendering on, at most one run of [handleSubmit] is in flight; the
    page shows the submitting state exactly while one is, and then shows no
    error message; while none is in flight the submit button is enabled. *)
Theorem one_attempt_at_a_time (evs : list Event) :
  let ss := run publicUrl initialSession evs in
  session_shape ss
  /\ (List.length (inflight ss) <= 1)%nat
  /\ match lifecycle (ui ss) with
     | SUBMITTING => List.length (inflight ss) = 1%nat
                     /\ submitError (ui ss) = []
     | _ => inflight ss = []
     end.
Proof.
  intros ss.
  assert (H : session_shape ss).
  { subst ss. generalize initialSession (eq_refl : session_shape initialSession).
    induction evs as [|ev evs IH]; intros s0 H0; simpl; [exact H0|].
    apply IH, step_shape, H0. }
  split; [exact H|].
  unfold session_shape in H. unfold lifecycle.
  destruct (inflight ss) as [|k [|k' l]]; [| |destruct H].
  - rewrite H. split; [simpl; lia|].
    destruct (falsy (submitError (ui ss))); reflexivity.
  - destruct H as [-> ->]. split; [simpl; lia|]. split; reflexivity.
Qed.

Lemma handleSubmit_count (now : N) (s : State) :
  (List.length (inserted_rows (calls (handleSubmit now s)))
   + pending_uploads match rest (handleSubmit now s) with
                     | Some k => [k]
                     | None => []
                     end <= 1)%nat.
Proof.
  unfold handleSubmit.
  destruct (validate s); [simpl; lia|].
  unfold try_block.
  destruct (uploadType s), (selectedImage s); simpl; lia.
Qed.

Lemma step_count (ss : Session) (ev : Event) :
  (List.length (inserted_rows (effects (step publicUrl ss ev)))
   + pending_uploads (inflight (step publicUrl ss ev))
   <= List.length (inserted_rows (effects ss))
      + pending_uploads (inflight ss) + submits [ev])%nat.
Proof.
  destruct ev as [now|f v|files|t|i a|i a]; simpl; try lia.
  - destruct (isSubmitting (ui ss)); [lia|].
    unfold absorb. simpl.
    rewrite inserted_rows_app, length_app, pending_uploads_app.
    pose proof (handleSubmit_count now (ui ss)). lia.
  - destruct (nth_error (inflight ss) i) as [[fd b|]|] eqn:Hn; try lia.
    rewrite (pending_uploads_remove_upload _ _ _ _ Hn).
    unfold absorb. simpl.
    rewrite inserted_rows_app, length_app, pending_uploads_app.
    destruct a; simpl; lia.
  - destruct (nth_error (inflight ss) i) as [[fd b|]|] eqn:Hn; try lia.
    unfold absorb. simpl.
    rewrite inserted_rows_app, length_app, pending_uploads_app.
    rewrite (pending_uploads_remove_insert _ _ Hn).
    destruct a; simpl; lia.
Qed.

Lemma run_count (evs : list Event) (ss : Session) :
  (List.length (inserted_rows (effects (run publicUrl ss evs)))
   + pending_uploads (inflight (run publicUrl ss evs))
   <= List.length (inserted_rows (effects ss))
      + pending_uploads (inflight ss) + submits evs)%nat.
Proof.
  revert ss. induction evs as [|ev evs IH]; intros ss.
  - simpl. lia.
  - change (run publicUrl ss (ev :: evs))
      with (run publicUrl (step publicUrl ss ev) evs).
    specialize (IH (step publicUrl ss ev)).
    pose proof (step_count ss ev) as Hs.
    assert (Hsub : submits (ev :: evs) = (submits [ev] + submits evs)%nat).
    { destruct ev; reflexivity. }
    lia.
Qed.

(** X10: in any sequence of events from the first rendering on, the rows
    handed to [insert] are never more than the activations of the submit
    button: no event other than a submission makes a row, and no submission
    makes two. *)
Theorem rows_bounded_by_submissions (evs : list Event) :
  (List.length (inserted_rows (effects (run publicUrl initialSession evs)))
   <= submits evs)%nat.
Proof.
  pose proof (run_count evs initialSession) as H. simpl in H. lia.
Qed.

Lemma handleSubmit_rows_ok (now : N) (s : State) :
  forallb row_ok (inserted_rows (calls (handleSubmit now s))) = true
  /\ forallb closure_ok match rest (handleSubmit now s) with
                        | Some k => [k]
                        | None => []
                        end = true.
Proof.
  unfold handleSubmit.
  destruct (validate s) as [reason|b] eqn:Hv; [split; reflexivity|].
  pose proof (validate_image_present s b Hv) as Himg.
  pose proof (validate_closure_ok s b Hv) as Hc.
  unfold try_block.
  destruct (uploadType s).
  - destruct Himg as [img ->]. cbn [calls rest inserted_rows forallb].
    rewrite Hc. split; reflexivity.
  - destruct (selectedImage s);
      cbn [calls rest start_insert app inserted_rows forallb closure_ok];
      rewrite (row_of_ok _ _ _ Hc); split; reflexivity.
Qed.

Lemma step_rows_ok (ss : Session) (ev : Event) :
  session_rows_ok ss = true ->
  session_rows_ok (step publicUrl ss ev) = true.
Proof.
  unfold session_rows_ok. rewrite !andb_true_iff. intros [Hr Hc].
  destruct ev as [now|f v|files|t|i a|i a]; simpl; auto.
  - destruct (isSubmitting (ui ss)); [auto|].
    unfold absorb. simpl.
    rewrite inserted_rows_app, !forallb_app, Hr, Hc.
    destruct (handleSubmit_rows_ok now (ui ss)) as [-> ->]. auto.
  - destruct (nth_error (inflight ss) i) as [[fd b|]|] eqn:Hn; auto.
    pose proof (forallb_nth_error _ _ _ _ Hc Hn) as Hk.
    unfold absorb. simpl.
    rewrite inserted_rows_app, !forallb_app, Hr.
    rewrite (forallb_remove_nth _ _ i Hc).
    destruct a; simpl; rewrite ?(row_of_ok _ _ _ Hk); auto.
  - destruct (nth_error (inflight ss) i) as [[fd b|]|] eqn:Hn; auto.
    unfold absorb. simpl.
    rewrite inserted_rows_app, !forallb_app, Hr.
    rewrite (forallb_remove_nth _ _ i Hc).
    destruct a; simpl; auto.
Qed.

(** X11: in any sequence of events from the first rendering on, every row
    handed to [insert] has an address that is not [null], a budget that is
    not [NaN], and a name and a phone number that are neither [null] nor
    empty; the fall-backs to [null] written for [name] and [phone_number]
    never apply. *)
Theorem every_row_is_well_formed (evs : list Event) :
  forallb row_ok (inserted_rows (effects (run publicUrl initialSession evs)))
  = true.
Proof.
  assert (H : session_rows_ok (run publicUrl initialSession evs) = true).
  { generalize initialSession (eq_refl : session_rows_ok initialSession = true).
    induction evs as [|ev evs IH]; intros s0 H0; simpl; [exact H0|].
    apply IH, step_rows_ok, H0. }
  unfold session_rows_ok in H. apply andb_true_iff in H. tauto.
Qed.




End Interleavings.


(** ** What [trim] keeps *)

Lemma trimStart_split (s : JSString) :
  exists a, s = a ++ trimStart s /\ whitespace_only a = true.
Proof.
  induction s as [|c r [a [Hr Ha]]]; simpl.
  - exists []. split; reflexivity.
  - destruct (isWhiteSpace c) eqn:E.
    + exists (c :: a). split; [simpl; congruence|].
      unfold whitespace_only in *. simpl. rewrite E. exact Ha.
    + exists []. split; reflexivity.
Qed.

Lemma trimStart_fixed (s : JSString) :
  match s with c :: _ => isWhiteSpace c = false | [] => True end ->
  trimStart s = s.
Proof. destruct s as [|c r]; simpl; [reflexivity|]. intros ->. reflexivity. Qed.

Lemma trimEnd_split (t : JSString) :
  exists b, t = trimEnd t ++ b /\ whitespace_only b = true.
Proof.
  destruct (trimStart_split (rev t)) as [a [Hr Ha]].
  exists (rev a). split.
  - unfold trimEnd. rewrite <- rev_app_distr, <- Hr, rev_involutive.
    reflexivity.
  - rewrite whitespace_only_rev. exact Ha.
Qed.

Lemma trim_first (s : JSString) :
  match trim s with c :: _ => isWhiteSpace c = false | [] => True end.
Proof.
  unfold trim.
  destruct (trimEnd_split (trimStart s)) as [b [Hb _]].
  destruct (trimEnd (trimStart s)) as [|c r]; [exact I|].
  simpl in Hb. apply trimStart_head in Hb. exact Hb.
Qed.

Lemma trim_last (s : JSString) :
  match rev (trim s) with c :: _ => isWhiteSpace c = false | [] => True end.
Proof.
  unfold trim, trimEnd. rewrite rev_involutive.
  destruct (trimStart (rev (trimStart s))) as [|c r] eqn:E; [exact I|].
  apply trimStart_head in E. exact E.
Qed.

(** X13: [trim] takes white space off the two ends and nothing else: the
    text is the trimmed text between two runs of white space, the trimmed
    text neither starts nor ends with white space, and trimming it again
    changes nothing.  This is the text the handler tests for emptiness and
    stores for the address, the material, the comments, the name and the
    phone number. *)
Theorem trim_strips_only_the_ends (s : JSString) :
  (exists a b,
      s = a ++ trim s ++ b
      /\ whitespace_only a = true
      /\ whitespace_only b = true)
  /\ match trim s with c :: _ => isWhiteSpace c = false | [] => True end
  /\ match rev (trim s) with c :: _ => isWhiteSpace c = false | [] => True end
  /\ trim (trim s) = trim s.
Proof.
  split.
  { destruct (trimStart_split s) as [a [Hs Ha]].
    destruct (trimEnd_split (trimStart s)) as [b [Ht Hb]].
    exists a, b. split; [|split; assumption].
    unfold trim. rewrite <- Ht. exact Hs. }
  split; [exact (trim_first s)|].
  split; [exact (trim_last s)|].
  pose proof (trim_first s) as Hf. pose proof (trim_last s) as Hl.
  unfold trim at 1. rewrite (trimStart_fixed _ Hf).
  unfold trimEnd. rewrite (trimStart_fixed _ Hl). apply rev_involutive.
Qed.

(** X14: for a draft that passes validation, every row the attempt hands to
    [insert] holds the trimmed name, the trimmed phone number and the parsed
    budget of that draft, and goes to the table [form_submissions]. *)
Theorem row_holds_trimmed_contact
    (publicUrl : JSString -> JSString -> JSString)
    (now : N) (up : UploadAnswer) (ins : InsertAnswer)
    (s : State) (b : JSNumber) :
  validate s = inr b ->
  let o := attempt publicUrl now up ins s in
  Forall (fun r =>
            Submission.name r = Some (trim (name (formData s)))
            /\ Submission.phone_number r = Some (trim (phone (formData s)))
            /\ Submission.budget r = parseFloat (budget (formData s)))
    (inserted_rows (calls o))
  /\ Forall (fun c => match c with
                      | from_insert t _ => t = lit "form_submissions"
                      | _ => True
                      end) (calls o).
Proof.
  intros Hv o.
  destruct (validate_required_fields s b Hv) as [Hn [Hp _]].
  assert (Hb : b = parseFloat (budget (formData s))).
  { rewrite validate_first_failing in Hv.
    destruct (first_failing spec_checks s); congruence. }
  assert (Hrow : forall a,
             Submission.name (row_of (formData s) a b)
             = Some (trim (name (formData s)))
             /\ Submission.phone_number (row_of (formData s) a b)
                = Some (trim (phone (formData s)))
             /\ Submission.budget (row_of (formData s) a b)
                = parseFloat (budget (formData s))).
  { intros a. unfold row_of. simpl.
    rewrite !or_null_trim, Hn, Hp, Hb. auto. }
  split.
  - subst o. rewrite attempt_inserted_rows, Hv.
    destruct (uploadType s); [destruct up|]; repeat constructor;
      apply Hrow.
  - subst o. clear Hrow Hb Hn Hp. revert Hv.
    unfold attempt, handleSubmit. intros ->. unfold try_block.
    destruct (uploadType s), (selectedImage s), up, ins;
      simpl; repeat constructor.
Qed.

Lemma row_holds_trimmed_contact_witness :
  let s := url_draft (lit "12.5") in
  let o := attempt sample_publicUrl 1 (upload_data []) insert_data s in
  Forall (fun r =>
            Submission.name r = Some (trim (name (formData s)))
            /\ Submission.phone_number r = Some (trim (phone (formData s)))
            /\ Submission.budget r = parseFloat (budget (formData s)))
    (inserted_rows (calls o))
  /\ Forall (fun c => match c with
                      | from_insert t _ => t = lit "form_submissions"
                      | _ => True
                      end) (calls o).
Proof.
  apply (row_holds_trimmed_contact sample_publicUrl 1 (upload_data [])
           insert_data (url_draft (lit "12.5")) (Decimal false 125 (-1))).
  reflexivity.
Defined.

(** ** The name of the uploaded object *)

Lemma uint_units_digits (d : Decimal.uint) :
  forallb isDigit (uint_units d) = true.
Proof. induction d; simpl; auto. Qed.

Lemma uint_units_inj (d d' : Decimal.uint) :
  uint_units d = uint_units d' -> d = d'.
Proof.
  revert d'. induction d; destruct d'; simpl; intros H;
    try discriminate H; try reflexivity;
    injection H as H; f_equal; auto.
Qed.

Lemma digits_dash_split (d1 d2 r1 r2 : JSString) :
  forallb isDigit d1 = true ->
  forallb isDigit d2 = true ->
  d1 ++ 45 :: r1 = d2 ++ 45 :: r2 ->
  d1 = d2 /\ r1 = r2.
Proof.
  revert d2. induction d1 as [|c d1 IH]; intros [|c' d2] H1 H2 H;
    simpl in *.
  - injection H as ->. auto.
  - injection H as <- _. discriminate H2.
  - injection H as -> _. discriminate H1.
  - injection H as -> H.
    apply andb_true_iff in H1. apply andb_true_iff in H2.
    destruct (IH d2 (proj2 H1) (proj2 H2) H) as [-> ->]. auto.
Qed.

Lemma handleSubmit_upload_path (now : N) (s : State)
    (bucket p : JSString) (f : File.t) :
  In (storage_upload bucket p f) (calls (handleSubmit now s)) ->
  p = toString now ++ 45 :: File.name f
  /\ selectedImage s = Some f
  /\ uploadType s = file.
Proof.
  unfold handleSubmit.
  destruct (validate s); [intros []|].
  unfold try_block.
  destruct (uploadType s), (selectedImage s) as [img|]; simpl;
    intros [H|[]]; try discriminate H.
  injection H as _ <- <-. auto.
Qed.

(** X15: the name under which an image is uploaded tells the time of the
    submission and the name of the file apart: two uploads under the same
    object name were started at the same [Date.now()] with files of the same
    name.  Submissions at different times never collide in the bucket. *)
Theorem object_name_determines_time_and_file
    (now1 now2 : N) (s1 s2 : State) (bucket1 bucket2 p : JSString)
    (f1 f2 : File.t) :
  In (storage_upload bucket1 p f1) (calls (handleSubmit now1 s1)) ->
  In (storage_upload bucket2 p f2) (calls (handleSubmit now2 s2)) ->
  now1 = now2 /\ File.name f1 = File.name f2.
Proof.
  intros H1 H2.
  apply handleSubmit_upload_path in H1. destruct H1 as [E1 _].
  apply handleSubmit_upload_path in H2. destruct H2 as [E2 _].
  rewrite E1 in E2. unfold toString in E2.
  apply digits_dash_split in E2; try apply uint_units_digits.
  destruct E2 as [Hn Hf]. split; [|exact Hf].
  apply DecimalN.Unsigned.to_uint_inj, uint_units_inj, Hn.
Qed.

Lemma object_name_determines_time_and_file_witness :
  (5 : N) = 5
  /\ File.name {| File.name := lit "bag.png";
                  File.bytes := [137; 80; 78; 71] |}
     = File.name {| File.name := lit "bag.png";
                    File.bytes := [137; 80; 78; 71] |}.
Proof.
  apply (object_name_determines_time_and_file 5 5
           (file_draft (lit "12.5")) (file_draft (lit "7"))
           (lit "mvp_bucket") (lit "mvp_bucket") (lit "5-bag.png")
           {| File.name := lit "bag.png"; File.bytes := [137; 80; 78; 71] |}
           {| File.name := lit "bag.png"; File.bytes := [137; 80; 78; 71] |});
    left; reflexivity.
Defined.

(** ** Which budgets are read as numbers *)

Lemma parse_unsigned_NaN (neg : bool) (r : JSString) :
  isNaN (parse_unsigned neg r) =
  negb (starts_with (lit "Infinity") r
        || match r with
           | [] => false
           | c :: r' =>
               isDigit c
               || ((c =? 46)
                   && match r' with [] => false | d :: _ => isDigit d end)
           end).
Proof.
  unfold parse_unsigned.
  destruct (starts_with (lit "Infinity") r); [reflexivity|].
  destruct r as [|c r']; [reflexivity|].
  cbn [span_digits orb].
  destruct (isDigit c) eqn:Hc.
  - destruct (span_digits r') as [ds rest].
    destruct rest as [|c0 r2]; [reflexivity|].
    destruct (c0 =? 46); [|reflexivity].
    destruct (span_digits r2) as [fp r3]. destruct fp; reflexivity.
  - destruct (c =? 46); [|reflexivity].
    destruct r' as [|d r'']; [reflexivity|].
    cbn [span_digits orb andb].
    destruct (isDigit d).
    + destruct (span_digits r'') as [ds rest]. reflexivity.
    + reflexivity.
Qed.

Lemma parseFloat_NaN (s : JSString) :
  isNaN (parseFloat s) = negb (numeric_start (trimStart s)).
Proof.
  unfold parseFloat, numeric_start.
  destruct (trimStart s) as [|c r]; [reflexivity|].
  destruct (c =? 43); [apply parse_unsigned_NaN|].
  destruct (c =? 45); [apply parse_unsigned_NaN|].
  apply parse_unsigned_NaN.
Qed.

(** X16: for a draft that passes the five presence checks, the budget is
    accepted exactly when its text, after leading white space and one
    optional sign, starts with a digit, with a point followed by a digit, or
    with the word [Infinity]; what follows that start is not looked at for
    the decision.  A text that starts with anything else, a currency sign
    for one, gets the invalid-budget message. *)
Theorem budget_accepted_by_its_start (s : State) :
  first_failing presence_checks s = None ->
  validate s =
  if numeric_start (trimStart (budget (formData s)))
  then inr (parseFloat (budget (formData s)))
  else inl msg_invalid_budget.
Proof.
  intros Hp.
  rewrite validate_first_failing.
  unfold presence_checks, spec_checks, firstn, first_failing in Hp.
  unfold spec_checks, first_failing.
  repeat match type of Hp with
         | (if ?c then _ else _) = _ => destruct c; [discriminate Hp|]
         end.
  rewrite parseFloat_NaN.
  destruct (numeric_start (trimStart (budget (formData s)))); reflexivity.
Qed.

Lemma budget_accepted_by_its_start_witness :
  let s := url_draft (lit "$50") in
  validate s =
  if numeric_start (trimStart (budget (formData s)))
  then inr (parseFloat (budget (formData s)))
  else inl msg_invalid_budget.
Proof.
  apply (budget_accepted_by_its_start (url_draft (lit "$50"))).
  reflexivity.
Defined.

Example budgets_with_a_currency_sign :
  validate (url_draft (lit "$50")) = inl msg_invalid_budget
  /\ validate (url_draft (lit "50$")) = inr (Decimal false 50 0)
  /\ validate (url_draft (lit " 50 dollars")) = inr (Decimal false 50 0).
Proof. repeat split; reflexivity. Qed.

(** ** The creation of the client *)

(** X17: the module that creates the client never passes an undefined value
    on: a variable that is set and not empty is passed as it is, and one that
    is not set is replaced by the empty string.  The client is created with
    an empty URL (or key) exactly when the line about the missing URL (or
    key) was written to the console, and nothing else is written. *)
Theorem client_is_created_with_strings (env_url env_key : option JSString) :
  let i := Supabase.init env_url env_key in
  match env_url with
  | Some u => Supabase.supabaseUrl i = u
  | None => Supabase.supabaseUrl i = []
  end
  /\ match env_key with
     | Some k => Supabase.supabaseAnonKey i = k
     | None => Supabase.supabaseAnonKey i = []
     end
  /\ existsb (jsstring_eqb Supabase.msg_url) (Supabase.logged i)
     = falsy (Supabase.supabaseUrl i)
  /\ existsb (jsstring_eqb Supabase.msg_key) (Supabase.logged i)
     = falsy (Supabase.supabaseAnonKey i)
  /\ List.length (Supabase.logged i)
     = ((if falsy (Supabase.supabaseUrl i) then 1 else 0)
        + (if falsy (Supabase.supabaseAnonKey i) then 1 else 0))%nat.
Proof.
  destruct env_url as [[|c u]|], env_key as [[|d k]|];
    repeat split; reflexivity.
Qed.

(** ** One attempt after another *)

Lemma attempt_flag_down
    (publicUrl : JSString -> JSString -> JSString)
    (now : N) (up : UploadAnswer) (ins : InsertAnswer) (s : State) :
  isSubmitting (state (attempt publicUrl now up ins s)) = false.
Proof. attempt_cases s up ins; reflexivity. Qed.

(** X18: what an attempt does depends on the draft alone, not on what the
    page showed before: started with any earlier error message displayed,
    and with the flag in either position, it makes the same calls and ends
    in the same state.  An error of an earlier attempt never survives a new
    one. *)
Theorem attempt_ignores_earlier_outcome
    (publicUrl : JSString -> JSString -> JSString)
    (now : N) (up : UploadAnswer) (ins : InsertAnswer)
    (earlier : JSString) (flag : bool) (s : State) :
  attempt publicUrl now up ins (setSubmitError earlier (setIsSubmitting flag s))
  = attempt publicUrl now up ins s.
Proof.
  unfold attempt, handleSubmit.
  change (validate (setSubmitError earlier (setIsSubmitting flag s)))
    with (validate s).
  destruct (validate s) as [reason|b]; [reflexivity|].
  unfold try_block. simpl uploadType. simpl selectedImage.
  destruct (uploadType s), (selectedImage s), up, ins; reflexivity.
Qed.

(** X19: the page is never stuck.  From a session with nothing in flight, a
    submission that has come to its end, whatever its outcome, is followed
    by a second one as if it were the first: the two run as two attempts,
    the second on the state the first one left, and their calls follow one
    another in the log. *)
Theorem attempts_follow_one_another
    (publicUrl : JSString -> JSString -> JSString)
    (ss : Session) (now1 now2 : N)
    (up1 up2 : UploadAnswer) (ins1 ins2 : InsertAnswer) :
  inflight ss = [] ->
  isSubmitting (ui ss) = false ->
  let first := attempt publicUrl now1 up1 ins1 (ui ss) in
  let second := attempt publicUrl now2 up2 ins2 (state first) in
  run publicUrl ss
    [submit_activated now1; upload_settled 0 up1; insert_settled 0 ins1;
     submit_activated now2; upload_settled 0 up2; insert_settled 0 ins2]
  = {| ui := state second;
       inflight := [];
       effects := effects ss ++ calls first ++ calls second |}.
Proof.
  intros Hin Hidle first second.
  change [submit_activated now1; upload_settled 0 up1; insert_settled 0 ins1;
          submit_activated now2; upload_settled 0 up2; insert_settled 0 ins2]
    with ([submit_activated now1; upload_settled 0 up1;
           insert_settled 0 ins1]
          ++ [submit_activated now2; upload_settled 0 up2;
              insert_settled 0 ins2]).
  rewrite run_app.
  rewrite (run_one_attempt publicUrl ss now1 up1 ins1 Hin Hidle).
  fold first.
  rewrite run_one_attempt;
    [|reflexivity|apply attempt_flag_down].
  cbn [ui effects]. fold second. rewrite <- app_assoc. reflexivity.
Qed.

Lemma attempts_follow_one_another_witness :
  let ss := {| ui := url_draft (lit "abc"); inflight := [];
               effects := [] |} in
  let first := attempt sample_publicUrl 1 (upload_data []) insert_data
                 (ui ss) in
  let second := attempt sample_publicUrl 2 (upload_data []) insert_data
                  (state first) in
  run sample_publicUrl ss
    [submit_activated 1; upload_settled 0 (upload_data []);
     insert_settled 0 insert_data;
     submit_activated 2; upload_settled 0 (upload_data []);
     insert_settled 0 insert_data]
  = {| ui := state second;
       inflight := [];
       effects := effects ss ++ calls first ++ calls second |}.
Proof.
  apply (attempts_follow_one_another sample_publicUrl
           {| ui := url_draft (lit "abc"); inflight := []; effects := [] |}
           1 2 (upload_data []) (upload_data []) insert_data insert_data);
    reflexivity.
Defined.
